(** * ModSide: the mod side classifier of ModSide.py, embedded and verified

    The development follows the layout of [ModSide.py]:
    - Python values and the string operations the scanner relies on;
    - the archive reader ([zipfile.ZipFile]) as a list of named entries;
    - the two heuristic scanners and the decision engine [_decide_side];
    - the per-loader handlers, the dispatcher [JarFileHandler] and the
      directory walk [PathHandler], as state passing over the registry
      [self.mods] with explicit exceptions;
    - [LoadFromJson].

    Python [str] and [bytes] are both represented by [string] (a sequence of
    8-bit characters; text is its UTF-8 encoding).  The dictionary
    [self.mods] is a [gmap string ModInfo]. *)

From Stdlib Require Import ZArith Ascii String List Bool Lia Sorted.
From stdpp Require Import base option list strings gmap fin_maps.

Set Warnings "-register-all".
Local Open Scope string_scope.
Local Open Scope Z_scope.

(** ** Strings *)

Module Str.

(** [s.startswith(pre)] *)
Fixpoint startswith (s pre : string) : bool :=
  match pre, s with
  | EmptyString, _ => true
  | String _ _, EmptyString => false
  | String c pre', String d s' => Ascii.eqb c d && startswith s' pre'
  end.

(** [s.endswith(suf)] *)
Definition endswith (s suf : string) : bool :=
  startswith (String.rev s) (String.rev suf).

(** [m in data], on [str] and on [bytes] *)
Fixpoint contains (data m : string) : bool :=
  startswith data m ||
  match data with
  | EmptyString => false
  | String _ data' => contains data' m
  end.

(** [data[:n]] for [n >= 0] *)
Fixpoint take (n : nat) (s : string) : string :=
  match n, s with
  | O, _ => EmptyString
  | S _, EmptyString => EmptyString
  | S n', String c s' => String c (take n' s')
  end.

Definition lower_ascii (c : ascii) : ascii :=
  let n := nat_of_ascii c in
  if (Nat.leb 65 n && Nat.leb n 90)%bool then ascii_of_nat (n + 32) else c.

(** [s.lower()]; characters outside ASCII are left alone.  No character
    outside ASCII lowers to a letter of "client", "server", ".json" or
    "mixins", so the comparisons made by the scanner are not affected. *)
Fixpoint lower (s : string) : string :=
  match s with
  | EmptyString => EmptyString
  | String c s' => String (lower_ascii c) (lower s')
  end.

Fixpoint filter (f : ascii -> bool) (s : string) : string :=
  match s with
  | EmptyString => EmptyString
  | String c s' => if f c then String c (filter f s') else filter f s'
  end.

(** the characters matched by the pattern [[\x00-\x1F\x7F]] *)
Definition is_control (c : ascii) : bool :=
  let n := nat_of_ascii c in (Nat.leb n 31 || Nat.eqb n 127)%bool.

Fixpoint basename_go (cur s : string) : string :=
  match s with
  | EmptyString => String.rev cur
  | String c s' =>
      if Ascii.eqb c "/" then basename_go EmptyString s'
      else basename_go (String c cur) s'
  end.

(** [os.path.basename(p)]: what follows the last "/" (entry names of an
    archive are separated by "/") *)
Definition basename (p : string) : string := basename_go EmptyString p.

Definition bytes (l : list nat) : string :=
  fold_right (fun n s => String (ascii_of_nat n) s) EmptyString l.

(** The white space removed by [str.strip()]: the characters for which
    [str.isspace] holds, U+0009 to U+000D, U+001C to U+0020, U+0085, U+00A0,
    U+1680, U+2000 to U+200A, U+2028, U+2029, U+202F, U+205F and U+3000,
    each as its UTF-8 encoding (a [str] is held as its UTF-8 bytes). *)
Definition white_space : list string :=
  map bytes
    ([[9]; [10]; [11]; [12]; [13]; [28]; [29]; [30]; [31]; [32];
      [194; 133]; [194; 160]; [225; 154; 128]]
     ++ map (fun n => [226; 128; n]) (seq 128 11)
     ++ [[226; 128; 168]; [226; 128; 169]; [226; 128; 175]; [226; 129; 159];
         [227; 128; 128]])%list%nat.

(** [s] without its prefix [pre], when it starts with it *)
Fixpoint without_prefix (s pre : string) : option string :=
  match pre, s with
  | EmptyString, _ => Some s
  | String _ _, EmptyString => None
  | String c pre', String d s' => if Ascii.eqb c d then without_prefix s' pre' else None
  end.

(** [s] without the character at its start, when it is one of [spaces] *)
Fixpoint drop_space (spaces : list string) (s : string) : option string :=
  match spaces with
  | [] => None
  | w :: spaces' =>
      match without_prefix s w with
      | Some s' => Some s'
      | None => drop_space spaces' s
      end
  end.

Fixpoint lstrip_go (spaces : list string) (fuel : nat) (s : string) : string :=
  match fuel with
  | O => s
  | S fuel' =>
      match drop_space spaces s with
      | Some s' => lstrip_go spaces fuel' s'
      | None => s
      end
  end.

(** [s.lstrip()]; every removal shortens [s], so its length is fuel enough *)
Definition lstrip (s : string) : string :=
  lstrip_go white_space (String.length s) s.

(** [s.rstrip()]: the encoding of a character ends a string exactly when the
    character ends it, so the removal is that of [lstrip] on the reversed
    bytes *)
Definition rstrip (s : string) : string :=
  String.rev (lstrip_go (map String.rev white_space) (String.length s) (String.rev s)).

(** [s.strip()] *)
Definition strip (s : string) : string := rstrip (lstrip s).

Fixpoint lines_go (cur s : string) : list string :=
  match s with
  | EmptyString =>
      match cur with EmptyString => [] | _ => [String.rev cur] end
  | String c s' =>
      if Ascii.eqb c "010" then String.rev (String c cur) :: lines_go EmptyString s'
      else lines_go (String c cur) s'
  end.

(** iterating over a binary file object: the lines, each with its
    terminating newline *)
Definition lines (s : string) : list string := lines_go EmptyString s.

Fixpoint complete_lines_go (cur s : string) : list string :=
  match s with
  | EmptyString => []
  | String c s' =>
      if Ascii.eqb c "010" then String.rev (String c cur) :: complete_lines_go EmptyString s'
      else complete_lines_go (String c cur) s'
  end.

(** the lines of [s] that end in a newline *)
Definition complete_lines (s : string) : list string := complete_lines_go EmptyString s.

(** [s.split(':', 1)[1]] when [s] contains a colon *)
Fixpoint after_colon (s : string) : option string :=
  match s with
  | EmptyString => None
  | String c s' => if Ascii.eqb c ":" then Some s' else after_colon s'
  end.

Fixpoint insert_sorted (x : string) (l : list string) : list string :=
  match l with
  | [] => [x]
  | y :: l' => if String.leb x y then x :: l else y :: insert_sorted x l'
  end.

(** [sorted(l)] on strings *)
Definition sorted (l : list string) : list string :=
  foldr insert_sorted [] l.

End Str.

(** ** Python values

    The values that [json.loads] and [toml.loads] build, which are also the
    values stored in the fields of a [ModInfo].  [PNone] is [None].  A
    [PDict] lists its items in insertion order; the parsers produce pairwise
    distinct keys and a lookup takes the first binding. *)

Inductive pyval : Type :=
| PNone
| PBool (b : bool)
| PInt (z : Z)
| PStr (s : string)
| PList (l : list pyval)
| PDict (kvs : list (string * pyval)).

Inductive exn : Type :=
| BadZipFile
| KeyError
| AttributeError
| TypeError
| IndexError
| UnicodeDecodeError
| TomlDecodeError
| JSONDecodeError
| OSError
| RecursionError.

Inductive result (A : Type) : Type :=
| Ok (a : A)
| Raise (e : exn).
Arguments Ok {A} a.
Arguments Raise {A} e.

Definition rbind {A B : Type} (m : result A) (k : A -> result B) : result B :=
  match m with
  | Ok a => k a
  | Raise e => Raise e
  end.

Notation "'let*' x ':=' m 'in' k" := (rbind m (fun x => k))
  (at level 10, x pattern, m at level 99, k at level 200).

Module Py.

(** [bool(v)] *)
Definition truthy (v : pyval) : bool :=
  match v with
  | PNone => false
  | PBool b => b
  | PInt z => negb (z =? 0)
  | PStr s => negb (String.eqb s "")
  | PList l => match l with [] => false | _ => true end
  | PDict kvs => match kvs with [] => false | _ => true end
  end.

(** [a or b] *)
Definition or (a b : pyval) : pyval := if truthy a then a else b.

Fixpoint assoc (kvs : list (string * pyval)) (k : string) : option pyval :=
  match kvs with
  | [] => None
  | (k', v) :: kvs' => if String.eqb k' k then Some v else assoc kvs' k
  end.

(** [d.get(k, default)] on a dict *)
Definition dict_get (kvs : list (string * pyval)) (k : string) (default : pyval) : pyval :=
  match assoc kvs k with
  | Some v => v
  | None => default
  end.

(** [k in d] on a dict *)
Definition dict_mem (kvs : list (string * pyval)) (k : string) : bool :=
  match assoc kvs k with
  | Some _ => true
  | None => false
  end.

(** [v.get(k, default)] on any value: only a dict has [get] *)
Definition get (v : pyval) (k : string) (default : pyval) : result pyval :=
  match v with
  | PDict kvs => Ok (dict_get kvs k default)
  | _ => Raise AttributeError
  end.

(** [v.keys()] *)
Definition keys (v : pyval) : result (list string) :=
  match v with
  | PDict kvs => Ok (map fst kvs)
  | _ => Raise AttributeError
  end.

(** [len(v) > 0] *)
Definition nonempty (v : pyval) : result bool :=
  match v with
  | PStr _ | PList _ | PDict _ => Ok (truthy v)
  | _ => Raise TypeError
  end.

(** [v[0]]; the keys of a parsed dict are strings, so [d[0]] fails *)
Definition item0 (v : pyval) : result pyval :=
  match v with
  | PList (x :: _) => Ok x
  | PList [] => Raise IndexError
  | PStr (String c _) => Ok (PStr (String c EmptyString))
  | PStr EmptyString => Raise IndexError
  | PDict _ => Raise KeyError
  | _ => Raise TypeError
  end.

(** [isinstance(v, str) and v.lower() == s] *)
Definition is_str_lower (v : pyval) (s : string) : bool :=
  match v with
  | PStr t => String.eqb (Str.lower t) s
  | _ => false
  end.

End Py.

(** ** The decision engine *)

Definition meta_tag (loader r : string) : string := "[meta/" +:+ loader +:+ "] " +:+ r.
Definition mixin_tag (r : string) : string := "[mixin] " +:+ r.
Definition class_tag (r : string) : string := "[class-scan] " +:+ r.

Definition WARNING : string :=
  "WARNING: metadata says server_only but client markers found (possible mispackaged mod)".

Definition _decide_side (loader meta_side : string) (meta_reasons : list string)
    (mixin_client_hit : bool) (mixin_reasons : list string)
    (class_marker_hit : bool) (class_reasons : list string) : string * list string :=
  let reasons := map (meta_tag loader) meta_reasons in
  if String.eqb meta_side "client_only" then
    ("client_only", reasons)
  else if String.eqb meta_side "server_only" then
    if (class_marker_hit || mixin_client_hit)%bool then
      ("risky",
       (((reasons ++ map mixin_tag mixin_reasons) ++ map class_tag class_reasons) ++ [WARNING])%list)
    else ("server_only", reasons)
  else if class_marker_hit then
    ("risky", (reasons ++ map class_tag class_reasons)%list)
  else if mixin_client_hit then
    ("both", (reasons ++ map mixin_tag mixin_reasons)%list)
  else if String.eqb meta_side "both" then ("both", reasons)
  else ("unknown", reasons).

(** ** The fabric metadata extractor *)

Definition _extract_fabric_side_from_metadata (fabric_json : list (string * pyval))
    : result (string * list string * list (string * pyval)) :=
  let env := Py.dict_get fabric_json "environment" (PStr "*") in
  let entrypoints := Py.or (Py.dict_get fabric_json "entrypoints" (PDict [])) (PDict []) in
  let* ks := Py.keys entrypoints in
  let debug := [("environment", env); ("entrypoints_keys", PList (map PStr (Str.sorted ks)))] in
  if Py.is_str_lower env "client" then
    Ok ("client_only", ["fabric.mod.json: environment=client"], debug)
  else if Py.is_str_lower env "server" then
    Ok ("server_only", ["fabric.mod.json: environment=server"], debug)
  else
    let has_main := existsb (String.eqb "main") ks in
    let has_server := existsb (String.eqb "server") ks in
    let has_client := existsb (String.eqb "client") ks in
    if ((has_main || has_server) && negb has_client)%bool then
      Ok ("both", ["fabric.mod.json: has entrypoints main/server (no client-only entrypoint)"], debug)
    else if (has_client && negb (has_main || has_server))%bool then
      Ok ("client_only", ["fabric.mod.json: only client entrypoint present"], debug)
    else
      Ok ("unknown", ["fabric.mod.json: no decisive env/entrypoints"], debug).

(** ** Library functions

    [json.loads], [toml.loads] and the UTF-8 codec are not part of the
    program; the development is parametric in them.  [json_loads] returns
    the parsed value or raises: [JSONDecodeError], a [ValueError], on a text
    that is not JSON, and [RecursionError] on a text that nests too deep.
    For the other functions [None] stands for the library's exception
    ([toml.TomlDecodeError]; [UnicodeDecodeError]).  [py_repr] is [str(v)] on
    a value that is not a string. *)

Class PyLib : Type := {
  json_loads : string -> result pyval;
  toml_loads : string -> option (list (string * pyval));
  decode_utf8 : string -> option string;
  decode_utf8_ignore : string -> string;
  py_repr : pyval -> string
}.

(** [f"{v}"] *)
Definition py_str `{PyLib} (v : pyval) : string :=
  match v with
  | PStr s => s
  | _ => py_repr v
  end.

(** ** The archive reader

    An opened [zipfile.ZipFile]: its entries in directory order, each with
    its name and its content.  [z.open(p)] resolves a name to the last entry
    that carries it. *)

(** The content of an entry as its reader meets it.  [Intact d] reads as the
    bytes [d].  [Damaged d] is a stored entry that holds the bytes [d] under
    a check sum that does not match: it opens, and the read that reaches its
    end fails.  [Unreadable] is an entry that cannot be opened. *)
Inductive content : Type :=
| Intact (d : string)
| Damaged (d : string)
| Unreadable.

Definition archive : Type := list (string * content).

Definition namelist (z : archive) : list string := map fst z.

Definition in_namelist (p : string) (z : archive) : bool :=
  existsb (String.eqb p) (namelist z).

Fixpoint getinfo (z : archive) (p : string) (found : option content) : option content :=
  match z with
  | [] => found
  | (n, d) :: z' => getinfo z' p (if String.eqb n p then Some d else found)
  end.

(** [z.open(p)] *)
Definition zopen (z : archive) (p : string) : result content :=
  match getinfo z p None with
  | Some Unreadable => Raise BadZipFile
  | Some f => Ok f
  | None => Raise KeyError
  end.

(** [f.read()] *)
Definition read_all (f : content) : result string :=
  match f with
  | Intact d => Ok d
  | Damaged _ | Unreadable => Raise BadZipFile
  end.

(** [z.open(p).read()] *)
Definition zread (z : archive) (p : string) : result string :=
  let* f := zopen z p in read_all f.

(** the reader takes an entry in blocks of at least this many bytes *)
Definition MIN_READ_SIZE : Z := 4096.

(** [f.read(n)]: at most [n] bytes, everything when [n] is negative.  A read
    of [n > 0] bytes takes a block of [max n MIN_READ_SIZE] bytes of the
    entry, or what is left of it, and the check sum is compared by the block
    that reaches the end of the entry; a read of no byte takes no block. *)
Definition read_upto (n : Z) (f : content) : result string :=
  match f with
  | Intact d => Ok (if n <? 0 then d else Str.take (Z.to_nat n) d)
  | Damaged d =>
      if ((n =? 0) || ((0 <? n) && (Z.max n MIN_READ_SIZE <? Z.of_nat (String.length d))))%bool
      then Ok (Str.take (Z.to_nat n) d)
      else Raise BadZipFile
  | Unreadable => Raise BadZipFile
  end.

(** [z.open(p).read(n)] *)
Definition zread_upto (z : archive) (p : string) (n : Z) : result string :=
  let* f := zopen z p in read_upto n f.

(** the bytes that the line reader of a damaged entry has taken before the
    block that reaches the end: whole blocks of [MIN_READ_SIZE] bytes *)
Definition delivered (d : string) : nat :=
  Z.to_nat (MIN_READ_SIZE * ((Z.of_nat (String.length d) - 1) / MIN_READ_SIZE)).

(** [for line in f]: the lines that the iteration yields, and the exception
    that ends it, if any.  The lines of a damaged entry are those that end
    before the failing block. *)
Definition iter_lines (f : content) : list string * option exn :=
  match f with
  | Intact d => (Str.lines d, None)
  | Damaged d => (Str.complete_lines (Str.take (delivered d) d), Some BadZipFile)
  | Unreadable => ([], Some BadZipFile)
  end.

(** [zipfile.ZipFile(path, 'r')] on a file: [None] is a file that is not a
    valid archive *)
Definition ZipFile (file : option archive) : result archive :=
  match file with
  | Some z => Ok z
  | None => Raise BadZipFile
  end.

Section Reader.
Context `{PyLib}.

(** the exceptions that [except (TypeError, ValueError, json.JSONDecodeError)]
    catches; the decode errors are [ValueError]s *)
Definition is_type_or_value_error (e : exn) : bool :=
  match e with
  | TypeError | UnicodeDecodeError | TomlDecodeError | JSONDecodeError => true
  | _ => false
  end.

Definition JSONClean (json_string : string) : result pyval :=
  let json_string := Str.filter (fun c => negb (Str.is_control c)) json_string in
  match json_loads json_string with
  | Ok json_data => Ok json_data
  | Raise e => if is_type_or_value_error e then Ok PNone else Raise e
  end.

(** [None] when the entry cannot be read *)
Definition safeRead_from_zip (z : archive) (path : string) : option string :=
  match zread z path with
  | Ok d => Some (decode_utf8_ignore d)
  | Raise _ => None
  end.

(** the call of [JSONClean] is made in the [except] block, so what it raises
    is raised *)
Definition safeLoad_from_json (text : string) : result pyval :=
  match json_loads text with
  | Ok v => Ok v
  | Raise _ =>
      let* cleaned := JSONClean text in
      match cleaned with
      | PDict _ => Ok cleaned
      | _ => Ok PNone
      end
  end.

(** ** The mixin scanner *)

Definition mixin_reason (p : string) : string :=
  "mixin config '" +:+ p +:+ "' contains non-empty 'client' section".

(** one iteration of the loop over [z.namelist()] *)
Definition scan_mixin_entry (z : archive) (p : string) (st : bool * list string)
    : result (bool * list string) :=
  if negb (Str.endswith (Str.lower p) ".json") then Ok st
  else if negb (Str.startswith (Str.lower (Str.basename p)) "mixins") then Ok st
  else
    match safeRead_from_zip z p with
    | None => Ok st
    | Some txt =>
        if String.eqb txt "" then Ok st
        else
          let* j := safeLoad_from_json txt in
          match j with
          | PDict j =>
              match Py.assoc j "client" with
              | Some (PList (_ :: _)) => Ok (true, (snd st ++ [mixin_reason p])%list)
              | _ => Ok st
              end
          | _ => Ok st
          end
    end.

(** the loop over the names [names], from the state [st] on *)
Fixpoint scan_mixins_loop (z : archive) (names : list string) (st : bool * list string)
    : result (bool * list string) :=
  match names with
  | [] => Ok st
  | p :: rest =>
      let* st' := scan_mixin_entry z p st in
      scan_mixins_loop z rest st'
  end.

Definition _scan_mixins_for_client_sections (z : archive) : result (bool * list string) :=
  scan_mixins_loop z (namelist z) (false, []).

End Reader.

(** ** The class marker scanner *)

Definition markers : list string :=
  [ "net/minecraft/client/";
    "net/minecraft/client/MinecraftClient";
    "com/mojang/blaze3d/";
    "org/lwjgl/";
    "net/fabricmc/api/ClientModInitializer" ].

Definition marker_reason (m : string) : string := "class bytes contain marker: " +:+ m.

(** the inner loop [for m in markers: if m in data: ...; break] *)
Definition marker_hits (data : string) : list string :=
  match find (Str.contains data) markers with
  | Some m => [marker_reason m]
  | None => []
  end.

(** the loop over [z.namelist()], from entry [names] on, with the counter
    [scanned] and the list [hits] built so far *)
Fixpoint scan_class_loop (z : archive) (max_classes max_bytes_per_class : Z)
    (names : list string) (scanned : Z) (hits : list string) : list string :=
  match names with
  | [] => hits
  | p :: rest =>
      if negb (Str.endswith p ".class") then
        scan_class_loop z max_classes max_bytes_per_class rest scanned hits
      else
        let scanned := scanned + 1 in
        if scanned >? max_classes then hits
        else
          match zread_upto z p max_bytes_per_class with
          | Ok data =>
              scan_class_loop z max_classes max_bytes_per_class rest scanned
                (hits ++ marker_hits data)%list
          | Raise _ =>
              scan_class_loop z max_classes max_bytes_per_class rest scanned hits
          end
  end.

Definition _scan_class_bytes_for_client_markers (z : archive)
    (max_classes max_bytes_per_class : Z) : bool * list string :=
  let hits := scan_class_loop z max_classes max_bytes_per_class (namelist z) 0 [] in
  (0 <? Z.of_nat (length hits), hits).

(** the call with the default caps *)
Definition scan_class_default (z : archive) : bool * list string :=
  _scan_class_bytes_for_client_markers z 300 200000.

(** ** Records and the registry *)

Record ModInfo : Type := mkModInfo {
  modid : pyval;
  name : pyval;
  version : pyval;
  side : pyval;
  loader : pyval;
  reasons : pyval;
  debug : pyval;
  source_files : pyval
}.

(** [self.mods] *)
Abbreviation registry := (gmap string ModInfo).

(** a list of strings as a Python value *)
Definition PStrs (l : list string) : pyval := PList (map PStr l).

Definition _make_mod_key `{PyLib} (modid loader version : pyval) : string :=
  let lid := Py.or loader (PStr "unknown") in
  let ver := Py.or version (PStr "unknown") in
  py_str modid +:+ "_" +:+ py_str lid +:+ "_" +:+ py_str ver.

(** ** Methods: state passing over [self.mods], with exceptions

    A method that raises leaves [self.mods] as it was at that point. *)

Definition M (A : Type) : Type := registry -> result A * registry.

Definition ret {A : Type} (a : A) : M A := fun mods => (Ok a, mods).

Definition bind {A B : Type} (m : M A) (k : A -> M B) : M B :=
  fun mods =>
    match m mods with
    | (Ok a, mods') => k a mods'
    | (Raise e, mods') => (Raise e, mods')
    end.

Definition lift {A : Type} (r : result A) : M A := fun mods => (r, mods).

Notation "'run' x <- m ;; k" := (bind m (fun x => k))
  (at level 10, x pattern, m at level 99, k at level 200).

(** [key in self.mods] *)
Definition has_key (key : string) : M bool :=
  fun mods => (Ok (bool_decide (is_Some (mods !! key))), mods).

(** [self.mods[key] = info] *)
Definition set_key (key : string) (info : ModInfo) : M unit :=
  fun mods => (Ok tt, <[key := info]> mods).

(** [self.mods.clear()] *)
Definition clear : M unit := fun _ => (Ok tt, ∅).

(** [if key not in self.mods: self.mods[key] = info] *)
Definition add_if_absent (key : string) (info : ModInfo) : M unit :=
  run present <- has_key key ;;
  if present then ret tt else set_key key info.

(** [try: m  except Exception: pass] *)
Definition try_pass (m : M unit) : M unit :=
  fun mods =>
    match m mods with
    | (Ok _, mods') => (Ok tt, mods')
    | (Raise _, mods') => (Ok tt, mods')
    end.

Section Handlers.
Context `{PyLib}.

(** [raw.decode('utf-8')] *)
Definition decode_strict (raw : string) : result string :=
  match decode_utf8 raw with
  | Some s => Ok s
  | None => Raise UnicodeDecodeError
  end.

(** the choice of [mod_info] in [UniversalHandler]; [None] is the
    [return] of the last branch *)
Definition universal_mod_info (data : pyval) : result (option pyval) :=
  match data with
  | PList (x :: _) => Ok (Some x)
  | PDict d =>
      if Py.dict_mem d "modlist" then
        let modlist := Py.dict_get d "modlist" PNone in
        let* ne := Py.nonempty modlist in
        if ne then let* x := Py.item0 modlist in Ok (Some x) else Ok None
      else Ok None
  | _ => Ok None
  end.

Definition UniversalHandler (folder_path : string) (file : option archive) : M unit :=
  run z <- lift (ZipFile file) ;;
  if in_namelist "mcmod.info" z then
    run raw <- lift (zread z "mcmod.info") ;;
    run raw_data <- lift (decode_strict raw) ;;
    run data <- lift (JSONClean raw_data) ;;
    match data with
    | PNone => ret tt
    | _ =>
        run choice <- lift (universal_mod_info data) ;;
        match choice with
        | None => ret tt
        | Some mod_info =>
            run modid <- lift (Py.get mod_info "modid" (PStr "")) ;;
            if Py.truthy modid then
              run v <- lift (Py.get mod_info "version" (PStr "")) ;;
              let version := Py.or v (PStr "unknown") in
              let loader := PStr "universal" in
              let key := _make_mod_key modid loader version in
              run present <- has_key key ;;
              if present then ret tt
              else
                run name <- lift (Py.get mod_info "name" (PStr "")) ;;
                set_key key
                  {| modid := modid; name := name; version := version;
                     side := PStr "unknown"; loader := loader;
                     reasons := PStrs ["legacy/zip: mcmod.info has no reliable sided metadata"];
                     debug := PNone; source_files := PStrs [folder_path] |}
            else ret tt
        end
    end
  else ret tt.

Definition FabricModHandler (folder_path : string) (file : option archive) : M unit :=
  run z <- lift (ZipFile file) ;;
  if negb (in_namelist "fabric.mod.json" z) then ret tt
  else
    match safeRead_from_zip z "fabric.mod.json" with
    | None => ret tt
    | Some txt =>
        if String.eqb txt "" then ret tt
        else
          run cleaned <- lift (JSONClean txt) ;;
          match cleaned with
          | PDict data =>
              run (meta_side, meta_reasons, dbg) <- lift (_extract_fabric_side_from_metadata data) ;;
              run (mixin_hit, mixin_reasons) <- lift (_scan_mixins_for_client_sections z) ;;
              let '(class_hit, class_reasons) := scan_class_default z in
              let '(sd, rs) :=
                _decide_side "fabric" meta_side meta_reasons
                  mixin_hit mixin_reasons class_hit class_reasons in
              let modid := Py.dict_get data "id" (PStr "") in
              if Py.truthy modid then
                let version := Py.or (Py.dict_get data "version" (PStr "")) (PStr "unknown") in
                let loader := PStr "fabric" in
                let key := _make_mod_key modid loader version in
                add_if_absent key
                  {| modid := modid; name := Py.dict_get data "name" (PStr "");
                     version := version; side := PStr sd; loader := loader;
                     reasons := PStrs rs; debug := PDict dbg;
                     source_files := PStrs [folder_path] |}
              else ret tt
          | _ => ret tt
          end
    end.

Definition RiftModHandler (folder_path : string) (file : option archive) : M unit :=
  run z <- lift (ZipFile file) ;;
  if negb (in_namelist "riftmod.json" z) then ret tt
  else
    match safeRead_from_zip z "riftmod.json" with
    | None => ret tt
    | Some txt =>
        if String.eqb txt "" then ret tt
        else
          run cleaned <- lift (JSONClean txt) ;;
          match cleaned with
          | PDict data =>
              let meta_side := "unknown" in
              let meta_reasons := ["riftmod.json: no standard sided metadata"] in
              run (mixin_hit, mixin_reasons) <- lift (_scan_mixins_for_client_sections z) ;;
              let '(class_hit, class_reasons) := scan_class_default z in
              let '(sd, rs) :=
                _decide_side "rift" meta_side meta_reasons
                  mixin_hit mixin_reasons class_hit class_reasons in
              let modid := Py.dict_get data "id" (PStr "") in
              if Py.truthy modid then
                let version := Py.or (Py.dict_get data "version" (PStr "")) (PStr "unknown") in
                let loader := PStr "rift" in
                let key := _make_mod_key modid loader version in
                add_if_absent key
                  {| modid := modid; name := Py.dict_get data "name" (PStr "");
                     version := version; side := PStr sd; loader := loader;
                     reasons := PStrs rs; debug := PNone;
                     source_files := PStrs [folder_path] |}
              else ret tt
          | _ => ret tt
          end
    end.

(** the meta-side guess of [QuiltModHandler] from the environment value *)
Definition quilt_meta (env : pyval) : string * list string :=
  if Py.is_str_lower env "client" then
    ("client_only", ["quilt.mod.json: environment=client"])
  else if Py.is_str_lower env "server" then
    ("server_only", ["quilt.mod.json: environment=server"])
  else ("unknown", ["quilt.mod.json: no decisive environment field"]).

Definition QuiltModHandler (folder_path : string) (file : option archive) : M unit :=
  run z <- lift (ZipFile file) ;;
  if negb (in_namelist "quilt.mod.json" z) then ret tt
  else
    match safeRead_from_zip z "quilt.mod.json" with
    | None => ret tt
    | Some txt =>
        if String.eqb txt "" then ret tt
        else
          run cleaned <- lift (JSONClean txt) ;;
          match cleaned with
          | PDict data =>
              let loader_data := Py.or (Py.dict_get data "quilt_loader" (PDict [])) (PDict []) in
              run m <- lift (Py.get loader_data "metadata" (PDict [])) ;;
              let meta := Py.or m (PDict []) in
              run env_default <- lift (Py.get meta "environment" (PStr "*")) ;;
              run env <- lift (Py.get loader_data "environment" env_default) ;;
              let '(meta_side, meta_reasons) := quilt_meta env in
              let dbg := [("environment", env)] in
              run (mixin_hit, mixin_reasons) <- lift (_scan_mixins_for_client_sections z) ;;
              let '(class_hit, class_reasons) := scan_class_default z in
              let '(sd, rs) :=
                _decide_side "quilt" meta_side meta_reasons
                  mixin_hit mixin_reasons class_hit class_reasons in
              run modid <- lift (Py.get loader_data "id" (PStr "")) ;;
              if Py.truthy modid then
                run v <- lift (Py.get loader_data "version" (PStr "")) ;;
                let version := Py.or v (PStr "unknown") in
                let loader := PStr "quilt" in
                let key := _make_mod_key modid loader version in
                run name <- lift (Py.get meta "name" (PStr "")) ;;
                add_if_absent key
                  {| modid := modid; name := name;
                     version := version; side := PStr sd; loader := loader;
                     reasons := PStrs rs; debug := PDict dbg;
                     source_files := PStrs [folder_path] |}
              else ret tt
          | _ => ret tt
          end
    end.

(** the choice of [mod_info] in [LForgeModHandler] *)
Definition lforge_mod_info (cleaned_data : pyval) : option pyval :=
  match cleaned_data with
  | PList (x :: _) => Some x
  | PDict _ => Some cleaned_data
  | _ => None
  end.

Definition LForgeModHandler (folder_path : string) (file : option archive) : M unit :=
  run z <- lift (ZipFile file) ;;
  if negb (in_namelist "mcmod.info" z) then ret tt
  else
    match safeRead_from_zip z "mcmod.info" with
    | None => ret tt
    | Some raw_data =>
        if String.eqb raw_data "" then ret tt
        else
          run cleaned_data <- lift (JSONClean raw_data) ;;
          match lforge_mod_info cleaned_data with
          | None => ret tt
          | Some mod_info =>
              let meta_side := "unknown" in
              let meta_reasons := ["forge legacy: mcmod.info has no reliable sided metadata"] in
              run (mixin_hit, mixin_reasons) <- lift (_scan_mixins_for_client_sections z) ;;
              let '(class_hit, class_reasons) := scan_class_default z in
              let '(sd, rs) :=
                _decide_side "forge_legacy" meta_side meta_reasons
                  mixin_hit mixin_reasons class_hit class_reasons in
              run modid <- lift (Py.get mod_info "modid" (PStr "")) ;;
              if Py.truthy modid then
                run v <- lift (Py.get mod_info "version" (PStr "")) ;;
                let version := Py.or v (PStr "unknown") in
                let loader := PStr "forge_legacy" in
                let key := _make_mod_key modid loader version in
                run name <- lift (Py.get mod_info "name" (PStr "")) ;;
                add_if_absent key
                  {| modid := modid; name := name;
                     version := version; side := PStr sd; loader := loader;
                     reasons := PStrs rs; debug := PNone;
                     source_files := PStrs [folder_path] |}
              else ret tt
          end
    end.

(** the loop over the lines of [META-INF/MANIFEST.MF], which stops at the
    first line that starts with [Implementation-Version:] and takes its
    value; when the lines run out the iteration ends as [ending] says, and
    [version] is unchanged *)
Fixpoint manifest_version (lines : list string) (ending : option exn) (version : pyval)
    : result pyval :=
  match lines with
  | [] =>
      match ending with
      | Some e => Raise e
      | None => Ok version
      end
  | line :: rest =>
      let line := Str.strip (decode_utf8_ignore line) in
      if Str.startswith line "Implementation-Version:" then
        match Str.after_colon line with
        | Some v => Ok (PStr (Str.strip v))
        | None => Raise IndexError
        end
      else manifest_version rest ending version
  end.

(** the resolution of the placeholder version in [MForgeModHandler] *)
Definition resolve_jar_version (z : archive) (version : pyval) : result pyval :=
  match version with
  | PStr "${file.jarVersion}" =>
      if in_namelist "META-INF/MANIFEST.MF" z then
        let* manifest := zopen z "META-INF/MANIFEST.MF" in
        let '(lines, ending) := iter_lines manifest in
        manifest_version lines ending version
      else Ok version
  | _ => Ok version
  end.

(** [toml.loads(raw.decode('utf-8', errors='ignore'))] *)
Definition load_toml (raw : string) : result (list (string * pyval)) :=
  match toml_loads (decode_utf8_ignore raw) with
  | Some d => Ok d
  | None => Raise TomlDecodeError
  end.

Definition MForgeModHandler (folder_path : string) (file : option archive) : M unit :=
  run z <- lift (ZipFile file) ;;
  if negb (in_namelist "META-INF/mods.toml" z) then ret tt
  else
    run raw <- lift (zread z "META-INF/mods.toml") ;;
    run data <- lift (load_toml raw) ;;
    let mods := Py.dict_get data "mods" (PList []) in
    if negb (Py.truthy mods) then ret tt
    else
      run mod_info <- lift (Py.item0 mods) ;;
      run v <- lift (Py.get mod_info "version" (PStr "")) ;;
      run version <- lift (resolve_jar_version z v) ;;
      let meta_side := "unknown" in
      let meta_reasons := ["forge mods.toml: no reliable sided metadata; using class scan"] in
      run (mixin_hit, mixin_reasons) <- lift (_scan_mixins_for_client_sections z) ;;
      let '(class_hit, class_reasons) := scan_class_default z in
      let '(sd, rs) :=
        _decide_side "forge" meta_side meta_reasons
          mixin_hit mixin_reasons class_hit class_reasons in
      run modid <- lift (Py.get mod_info "modId" (PStr "")) ;;
      if Py.truthy modid then
        let loader := PStr "forge" in
        let key := _make_mod_key modid loader version in
        run name <- lift (Py.get mod_info "displayName" (PStr "")) ;;
        add_if_absent key
          {| modid := modid; name := name;
             version := version; side := PStr sd; loader := loader;
             reasons := PStrs rs; debug := PNone;
             source_files := PStrs [folder_path] |}
      else ret tt.

Definition NeoForgeModHandler (folder_path : string) (file : option archive) : M unit :=
  run z <- lift (ZipFile file) ;;
  if negb (in_namelist "META-INF/neoforge.mods.toml" z) then ret tt
  else
    run raw <- lift (zread z "META-INF/neoforge.mods.toml") ;;
    run data <- lift (load_toml raw) ;;
    let mods := Py.dict_get data "mods" (PList []) in
    if negb (Py.truthy mods) then ret tt
    else
      run mod_info <- lift (Py.item0 mods) ;;
      let meta_side := "unknown" in
      let meta_reasons := ["neoforge mods.toml: no reliable sided metadata; using class scan"] in
      run (mixin_hit, mixin_reasons) <- lift (_scan_mixins_for_client_sections z) ;;
      let '(class_hit, class_reasons) := scan_class_default z in
      let '(sd, rs) :=
        _decide_side "neoforge" meta_side meta_reasons
          mixin_hit mixin_reasons class_hit class_reasons in
      run modid <- lift (Py.get mod_info "modId" (PStr "")) ;;
      if Py.truthy modid then
        run v <- lift (Py.get mod_info "version" (PStr "")) ;;
        let version := Py.or v (PStr "unknown") in
        let loader := PStr "neoforge" in
        let key := _make_mod_key modid loader version in
        run name <- lift (Py.get mod_info "displayName" (PStr "")) ;;
        add_if_absent key
          {| modid := modid; name := name;
             version := version; side := PStr sd; loader := loader;
             reasons := PStrs rs; debug := PNone;
             source_files := PStrs [folder_path] |}
      else ret tt.

(** the verdict [SpecialHandler] computes and then drops *)
Definition special_verdict (z : archive) : result (string * list string) :=
  let meta_side := "unknown" in
  let meta_reasons := ["special/unknown mod type: no known metadata"] in
  let* (mixin_hit, mixin_reasons) := _scan_mixins_for_client_sections z in
  let '(class_hit, class_reasons) := scan_class_default z in
  Ok (_decide_side "special" meta_side meta_reasons
        mixin_hit mixin_reasons class_hit class_reasons).

Definition SpecialHandler (folder_path : string) (file : option archive) : M unit :=
  try_pass
    (run z <- lift (ZipFile file) ;;
     run (sd, rs) <- lift (special_verdict z) ;;
     ret tt).

(** ** The dispatcher *)

Definition JarFileHandler (folder_path : string) (file : option archive) : M unit :=
  run z <- lift (ZipFile file) ;;
  if in_namelist "fabric.mod.json" z then FabricModHandler folder_path file
  else if in_namelist "riftmod.json" z then RiftModHandler folder_path file
  else if in_namelist "quilt.mod.json" z then QuiltModHandler folder_path file
  else if in_namelist "mcmod.info" z then LForgeModHandler folder_path file
  else if in_namelist "META-INF/mods.toml" z then MForgeModHandler folder_path file
  else if in_namelist "META-INF/neoforge.mods.toml" z then NeoForgeModHandler folder_path file
  else SpecialHandler folder_path file.

End Handlers.

(** ** The directory walk

    A directory lists its items in the order [os.listdir] returns them; a
    file is a valid archive or not. *)

Inductive fsnode : Type :=
| FsDir (items : list (string * fsnode))
| FsFile (content : option archive).

(** [os.path.join(folder_path, item)] *)
Definition path_join (folder_path item : string) : string :=
  folder_path +:+ "/" +:+ item.

Section Walk.
Context `{PyLib}.

(** the branch of [PathHandler] for an item that is not a directory *)
Definition handle_file (full_path : string) (content : option archive) : M unit :=
  if Str.endswith full_path ".litemod" then UniversalHandler full_path content
  else if Str.endswith full_path ".zip" then UniversalHandler full_path content
  else if Str.endswith full_path ".jar" then JarFileHandler full_path content
  else ret tt.

(** the loop [for item in os.listdir(folder_path)], [visit] being the body
    applied to the joined path and to what lies there *)
Fixpoint PathHandler_loop (visit : string -> fsnode -> M unit) (folder_path : string)
    (items : list (string * fsnode)) : M unit :=
  match items with
  | [] => ret tt
  | (item, child) :: rest =>
      run _ <- visit (path_join folder_path item) child ;;
      PathHandler_loop visit folder_path rest
  end.

(** [PathHandler folder_path node]: [node] is what lies at [folder_path];
    [os.listdir] fails on a file *)
Fixpoint PathHandler (folder_path : string) (node : fsnode) {struct node} : M unit :=
  match node with
  | FsFile _ => lift (Raise OSError)
  | FsDir items =>
      PathHandler_loop
        (fun full_path child =>
           match child with
           | FsDir _ => PathHandler full_path child
           | FsFile content => handle_file full_path content
           end)
        folder_path items
  end.

End Walk.

(** ** Loading a snapshot

    The record directory: [None] when it does not exist, else its files in
    [os.listdir] order, each with its bytes ([None] when the file cannot be
    opened or read). *)

Definition record_dir : Type := option (list (string * option string)).

Section Snapshot.
Context `{PyLib}.

Definition is_snapshot_name (f : string) : bool :=
  Str.startswith f "ModelInfo_" && Str.endswith f ".json".

(** [l[index]], a negative index counting from the end *)
Definition list_index {A : Type} (l : list A) (index : Z) : result A :=
  let i := if index <? 0 then index + Z.of_nat (length l) else index in
  if i <? 0 then Raise IndexError
  else
    match nth_error l (Z.to_nat i) with
    | Some x => Ok x
    | None => Raise IndexError
    end.

Fixpoint file_content (dir : list (string * option string)) (f : string) : option string :=
  match dir with
  | [] => None
  | (n, c) :: dir' => if String.eqb n f then c else file_content dir' f
  end.

(** [with open(file_path, 'r', encoding='utf-8') as f: data = json.load(f)] *)
Definition load_json_file (content : option string) : result pyval :=
  match content with
  | None => Raise OSError
  | Some raw =>
      let* text := decode_strict raw in
      json_loads text
  end.

(** the values [for mod_dict in mods_data] ranges over; the items of a
    string are strings *)
Definition py_iter (v : pyval) : result (list pyval) :=
  match v with
  | PList l => Ok l
  | PDict kvs => Ok (map (fun kv => PStr (fst kv)) kvs)
  | PStr s => Ok (map (fun c => PStr (String c EmptyString)) (list_ascii_of_string s))
  | _ => Raise TypeError
  end.

(** the body of the loop over [mods_data] *)
Definition load_mod (mod_dict : pyval) : M unit :=
  run modid <- lift (Py.get mod_dict "modid" (PStr "")) ;;
  run name <- lift (Py.get mod_dict "name" (PStr "")) ;;
  run version <- lift (Py.get mod_dict "version" (PStr "")) ;;
  run side <- lift (Py.get mod_dict "side" PNone) ;;
  run loader <- lift (Py.get mod_dict "loader" PNone) ;;
  run reasons <- lift (Py.get mod_dict "reasons" PNone) ;;
  run debug <- lift (Py.get mod_dict "debug" PNone) ;;
  run source_files <- lift (Py.get mod_dict "source_files" PNone) ;;
  let mod_info :=
    {| modid := modid; name := name; version := version; side := side;
       loader := loader; reasons := reasons; debug := debug;
       source_files := source_files |} in
  let key :=
    _make_mod_key modid (Py.or loader (PStr "unknown")) (Py.or version (PStr "unknown")) in
  add_if_absent key mod_info.

Fixpoint load_mods (l : list pyval) : M unit :=
  match l with
  | [] => ret tt
  | mod_dict :: rest => run _ <- load_mod mod_dict ;; load_mods rest
  end.

(** the two recognised document shapes: [(metadata, mods_data)] *)
Definition snapshot_shape (data : pyval) : option (pyval * pyval) :=
  match data with
  | PDict d =>
      if Py.dict_mem d "metadata" && Py.dict_mem d "mods" then
        Some (Py.dict_get d "metadata" (PDict []), Py.dict_get d "mods" (PList []))
      else None
  | PList _ => Some (PDict [("current_path", PStr "")], data)
  | _ => None
  end.

(** the [try] block of [LoadFromJson] *)
Definition LoadFromJson_try (rd : record_dir) (index : Z) : M pyval :=
  match rd with
  | None => ret PNone
  | Some dir =>
      let files := List.filter is_snapshot_name (map fst dir) in
      match files with
      | [] => ret PNone
      | _ =>
          let files := rev (Str.sorted files) in
          if index >=? Z.of_nat (length files) then ret PNone
          else
            run selected_file <- lift (list_index files index) ;;
            run _ <- clear ;;
            run data <- lift (load_json_file (file_content dir selected_file)) ;;
            match snapshot_shape data with
            | None => ret PNone
            | Some (metadata, mods_data) =>
                run l <- lift (py_iter mods_data) ;;
                run _ <- load_mods l ;;
                ret metadata
            end
      end
  end.

(** [LoadFromJson(index)]: the metadata, or [None] *)
Definition LoadFromJson (rd : record_dir) (index : Z) : M pyval :=
  fun mods =>
    match LoadFromJson_try rd index mods with
    | (Ok metadata, mods') => (Ok metadata, mods')
    | (Raise _, mods') => (Ok PNone, mods')
    end.

End Snapshot.

(** ** Sample data

    A library instance for closed examples: the codec is the identity on
    ASCII text, and the parsers know the sample documents below, each under
    its compact JSON text. *)

Module Sample.

Definition dq : string := String "034"%char EmptyString.

Definition quoted (s : string) : string := dq +:+ s +:+ dq.

Fixpoint join (sep : string) (l : list string) : string :=
  match l with
  | [] => ""
  | [x] => x
  | x :: l' => x +:+ sep +:+ join sep l'
  end.

(** the compact JSON text of a value built from strings, lists and
    objects (no character of the samples needs escaping) *)
Fixpoint to_json (v : pyval) : string :=
  match v with
  | PNone => "null"
  | PBool true => "true"
  | PBool false => "false"
  | PInt _ => "0"
  | PStr s => quoted s
  | PList l => "[" +:+ join "," (map to_json l) +:+ "]"
  | PDict kvs =>
      "{" +:+ join "," (map (fun kv : string * pyval => let (k, x) := kv in quoted k +:+ ":" +:+ to_json x) kvs)
          +:+ "}"
  end.

(** [fabric.mod.json] declaring the client environment, with a general
    entry point *)
Definition fabric_client_doc : pyval :=
  PDict [("id", PStr "minimap"); ("version", PStr "1.0");
         ("name", PStr "Mini Map"); ("environment", PStr "client");
         ("entrypoints", PDict [("main", PList [PStr "a.Main"])])].

(** the same identity under another display name, no environment *)
Definition fabric_other_doc : pyval :=
  PDict [("id", PStr "minimap"); ("version", PStr "1.0");
         ("name", PStr "Other Name");
         ("entrypoints", PDict [("main", PList [PStr "b.Main"])])].

(** [entrypoints] is a list, not an object *)
Definition fabric_bad_entrypoints_doc : pyval :=
  PDict [("id", PStr "broken"); ("version", PStr "1.0");
         ("environment", PStr "client");
         ("entrypoints", PList [PStr "a.Main"])].

(** [mcmod.info] *)
Definition mcmod_doc : pyval :=
  PList [PDict [("modid", PStr "oldmod"); ("name", PStr "Old Mod");
                ("version", PStr "2.3")]].

(** a snapshot document with one record *)
Definition snapshot_doc : pyval :=
  PDict [("metadata", PDict [("current_path", PStr "/mods");
                             ("timestamp", PStr "20240101_000000")]);
         ("mods", PList [PDict [("modid", PStr "oldmod"); ("name", PStr "Old Mod");
                                ("version", PStr "2.3"); ("side", PStr "unknown");
                                ("loader", PStr "universal")]])].

(** a document that is neither an object nor a list *)
Definition scalar_doc : pyval := PStr "not a snapshot".

(** a mixin configuration with a client section *)
Definition mixin_doc : pyval :=
  PDict [("mixins", PList [PStr "WorldMixin"]); ("client", PList [PStr "GuiMixin"])].

Definition documents : list pyval :=
  [fabric_client_doc; fabric_other_doc; fabric_bad_entrypoints_doc;
   mcmod_doc; snapshot_doc; scalar_doc; mixin_doc].

(** a text on which the parser runs out of stack *)
Definition deep_text : string := "[[[[[[[[[[[[[[[[[[[[[[[[[[[[[[[[[[[[[[[[".

Definition is_ascii (s : string) : bool :=
  forallb (fun c => Nat.ltb (nat_of_ascii c) 128) (list_ascii_of_string s).

Definition lib : PyLib := {|
  json_loads := fun s =>
    match find (fun v => String.eqb (to_json v) s) documents with
    | Some v => Ok v
    | None => if String.eqb s deep_text then Raise RecursionError else Raise JSONDecodeError
    end;
  toml_loads := fun _ => None;
  decode_utf8 := fun s => if is_ascii s then Some s else None;
  decode_utf8_ignore := fun s => Str.filter (fun c => Nat.ltb (nat_of_ascii c) 128) s;
  py_repr := fun _ => "<object>"
|}.

(** a class file body that names a client API *)
Definition client_class : string := "CAFEBABE net/minecraft/client/Minecraft".

Definition plain_class : string := "CAFEBABE java/lang/Object".

Definition fabric_client_jar : archive :=
  [("fabric.mod.json", Intact (to_json fabric_client_doc));
   ("a/Main.class", Intact client_class)].

Definition fabric_other_jar : archive :=
  [("fabric.mod.json", Intact (to_json fabric_other_doc));
   ("b/Main.class", Intact plain_class)].

Definition fabric_broken_jar : archive :=
  [("fabric.mod.json", Intact (to_json fabric_bad_entrypoints_doc))].

(** a legacy archive whose classes name a client API *)
Definition legacy_zip : archive :=
  [("mcmod.info", Intact (to_json mcmod_doc));
   ("old/Gui.class", Intact client_class)].

(** no metadata file of any loader *)
Definition bare_jar : archive :=
  [("META-INF/MANIFEST.MF", Intact "Manifest-Version: 1.0");
   ("opt/Tweaker.class", Intact client_class)].

Definition some_record : ModInfo :=
  {| modid := PStr "kept"; name := PStr "Kept"; version := PStr "1";
     side := PStr "both"; loader := PStr "fabric"; reasons := PNone;
     debug := PNone; source_files := PNone |}.

Definition one_mod : registry := {[ "kept_fabric_1" := some_record ]}.

(** a record directory whose only snapshot cannot be read *)
Definition unreadable_dir : record_dir :=
  Some [("ModelInfo_20240101_000000.json", None)].

(** a record directory whose only snapshot is a JSON string *)
Definition scalar_dir : record_dir :=
  Some [("ModelInfo_20240101_000000.json", Some (to_json scalar_doc))].

(** a mods folder: a file that is not an archive, then a valid one *)
Definition mods_folder : fsnode :=
  FsDir [("broken.jar", FsFile None);
         ("minimap.jar", FsFile (Some fabric_client_jar))].

Definition mods_folder_valid_only : fsnode :=
  FsDir [("minimap.jar", FsFile (Some fabric_client_jar))].

(** two archives of one identity under different display names, the
    second in a sub-folder *)
Definition mods_folder_duplicate : fsnode :=
  FsDir [("minimap.jar", FsFile (Some fabric_client_jar));
         ("backup", FsDir [("minimap-copy.jar", FsFile (Some fabric_other_jar))])].

End Sample.

(** ** What the caps of the class marker scanner leave visible *)

Definition is_class (p : string) : bool := Str.endswith p ".class".

(** the class-file entries of an archive, in directory order *)
Definition class_entries (z : archive) : list string :=
  List.filter is_class (namelist z).








Fixpoint filler (n : nat) (tail : string) : string :=
  match n with
  | O => tail
  | S n' => String "000"%char (filler n' tail)
  end.

(** 300 class files without a marker, the first one carrying a marker
    after 200000 other bytes, then a class file that starts with a marker *)
Definition beyond_caps : archive :=
  (("c/First.class", Intact (filler (Z.to_nat 200000) "org/lwjgl/"))
     :: repeat ("c/Plain.class", Intact "CAFEBABE") 299
     ++ [("c/Late.class", Intact "org/lwjgl/")])%list.





(** ** The composite key of a record, and the growth of the registry *)

Section Keys.
Context `{PyLib}.

(** the key under which a record belongs *)
Definition composite_key (r : ModInfo) : string :=
  _make_mod_key (modid r) (loader r) (version r).

(** [mods'] keeps every entry of [mods] as it is, and every other entry of
    [mods'] sits under the composite key of its record *)
Definition grows (mods mods' : registry) : Prop :=
  (forall k r, mods !! k = Some r -> mods' !! k = Some r)
  /\ (forall k r, mods' !! k = Some r ->
        mods !! k = Some r \/ (mods !! k = None /\ k = composite_key r)).

(** a method under which the registry only grows *)
Definition growing {A : Type} (m : M A) : Prop :=
  forall mods, grows mods (snd (m mods)).

End Keys.

(** an optional string as a Python value *)
Definition opt_val (o : option string) : pyval :=
  match o with
  | Some s => PStr s
  | None => PNone
  end.

(** [o or "unknown"] *)
Definition or_unknown (o : option string) : string :=
  match o with
  | Some s => if String.eqb s "" then "unknown" else s
  | None => "unknown"
  end.

(** the entry names the dispatcher looks for *)
Definition triggers : list string :=
  ["fabric.mod.json"; "riftmod.json"; "quilt.mod.json"; "mcmod.info";
   "META-INF/mods.toml"; "META-INF/neoforge.mods.toml"].

(** no trigger is an entry of the archive *)
Definition routed_to_special (z : archive) : bool :=
  forallb (fun t => negb (in_namelist t z)) triggers.

(** ** The snapshot a load attempt selects *)

(** the snapshot files of a record directory, newest first *)
Definition snapshot_files (dir : list (string * option string)) : list string :=
  rev (Str.sorted (List.filter is_snapshot_name (map fst dir))).

(** the file that [LoadFromJson(index)] goes on to read, if it gets there *)
Definition selected_snapshot (rd : record_dir) (index : Z) : option string :=
  match rd with
  | None => None
  | Some dir =>
      if index >=? Z.of_nat (length (snapshot_files dir)) then None
      else
        match list_index (snapshot_files dir) index with
        | Ok f => Some f
        | Raise _ => None
        end
  end.

(** ** The merge of an unknown guess with the scanners *)

Section Merge.
Context `{PyLib}.

(** what [_decide_side] makes of the guess unknown, with its one reason, and
    of the results of the two scanners on the archive *)
Definition merged_unknown (loader reason : string) (z : archive)
    : result (string * list string) :=
  let* (mixin_hit, mixin_reasons) := _scan_mixins_for_client_sections z in
  let '(class_hit, class_reasons) := scan_class_default z in
  Ok (_decide_side loader "unknown" [reason]
        mixin_hit mixin_reasons class_hit class_reasons).

(** the record carries the verdict and the reasons of that merge *)
Definition records_merge (loader reason : string) (z : archive) (r : ModInfo) : Prop :=
  exists sd rs,
    merged_unknown loader reason z = Ok (sd, rs)
    /\ side r = PStr sd /\ reasons r = PStrs rs.

(** every record that the method adds under a free key satisfies [P] *)
Definition adds_only (P : ModInfo -> Prop) {A : Type} (m : M A) : Prop :=
  forall (mods : registry) k r,
    mods !! k = None -> snd (m mods) !! k = Some r -> P r.

End Merge.

(** ** Verdicts and metadata shapes *)

(** the sides a record can be given *)
Definition verdicts : list string :=
  ["client_only"; "server_only"; "risky"; "both"; "unknown"].

(** [isinstance(v, dict)] *)
Definition is_dict (v : pyval) : bool :=
  match v with
  | PDict _ => true
  | _ => false
  end.

(** the value [fabric_json.get("entrypoints", {})] *)
Definition declared_entrypoints (fabric_json : list (string * pyval)) : pyval :=
  Py.dict_get fabric_json "entrypoints" (PDict []).

(** the environment is a string that lowers to [s] *)
Definition env_is (fabric_json : list (string * pyval)) (s : string) : bool :=
  Py.is_str_lower (Py.dict_get fabric_json "environment" (PStr "*")) s.

Section MixinEntries.
Context `{PyLib}.

(** the parsed mixin configuration has a non-empty list under "client" *)
Definition has_client_section (j : pyval) : bool :=
  match j with
  | PDict d =>
      match Py.assoc d "client" with
      | Some (PList (_ :: _)) => true
      | _ => false
      end
  | _ => false
  end.

(** the text of the entry, when it is a readable, non-empty mixin
    configuration by its name *)
Definition mixin_text (z : archive) (p : string) : option string :=
  if Str.endswith (Str.lower p) ".json"
     && Str.startswith (Str.lower (Str.basename p)) "mixins"
  then
    match safeRead_from_zip z p with
    | Some txt => if String.eqb txt "" then None else Some txt
    | None => None
    end
  else None.

(** the entry is a readable, non-empty mixin configuration that loads to an
    object with a client section *)
Definition mixin_client_entry (z : archive) (p : string) : bool :=
  match mixin_text z p with
  | Some txt =>
      match safeLoad_from_json txt with
      | Ok j => has_client_section j
      | Raise _ => false
      end
  | None => false
  end.

(** what the load of the entry raises, when the entry is a mixin
    configuration and its load raises *)
Definition mixin_entry_raises (z : archive) (p : string) : option exn :=
  match mixin_text z p with
  | Some txt =>
      match safeLoad_from_json txt with
      | Ok _ => None
      | Raise e => Some e
      end
  | None => None
  end.

(** what the first entry whose load raises, raises *)
Fixpoint first_raise (z : archive) (names : list string) : option exn :=
  match names with
  | [] => None
  | p :: rest =>
      match mixin_entry_raises z p with
      | Some e => Some e
      | None => first_raise z rest
      end
  end.

End MixinEntries.

(** the markers that the class scanner can report *)
Definition reported_markers : list string :=
  ["net/minecraft/client/"; "com/mojang/blaze3d/"; "org/lwjgl/";
   "net/fabricmc/api/ClientModInitializer"].

(** a mixin configuration that nests too deep for the parser *)
Definition deep_mixins_jar : archive :=
  [("mixins.deep.json", Intact Sample.deep_text)].

Definition client_mixins_jar : archive :=
  [("mixins.client.json", Intact (Sample.to_json Sample.mixin_doc))].

Definition mixins_jar : archive :=
  [("mixins.a.json", Intact "a"); ("assets/lang.json", Intact "b");
   ("META-INF/Mixins.B.JSON", Intact "c"); ("x/Y.class", Intact "org/lwjgl/")].

(** ** What a handler does to the registry *)

(** the values of the loader field *)
Definition loaders : list string :=
  ["universal"; "fabric"; "rift"; "quilt"; "forge_legacy"; "forge"; "neoforge"].

(** the shape of a record made from the archive at [path] *)
Definition scanned_record (path : string) (r : ModInfo) : Prop :=
  Py.truthy (modid r) = true
  /\ (exists s, side r = PStr s /\ In s verdicts)
  /\ (exists l, loader r = PStr l /\ In l loaders)
  /\ (exists rs, reasons r = PStrs rs /\ rs <> [])
  /\ (loader r = PStr "forge" \/ Py.truthy (version r) = true)
  /\ source_files r = PStrs [path].

(** the number of files in a tree *)
Fixpoint count_files (node : fsnode) : nat :=
  match node with
  | FsFile _ => 1%nat
  | FsDir items => list_sum (map (fun it : string * fsnode => count_files (snd it)) items)
  end.

Section Acts.
Context `{PyLib}.

(** the method ends in the same way on every registry without touching it,
    or it is one guarded insertion of a record for which [P] holds *)
Definition acts_once (P : string -> ModInfo -> Prop) (m : M unit) : Prop :=
  (exists r, forall mods : registry, m mods = (r, mods))
  \/ (exists key info,
        P key info /\ forall mods : registry, m mods = add_if_absent key info mods).

(** the record made from [path], under its composite key *)
Definition keyed_record (path key : string) (info : ModInfo) : Prop :=
  key = composite_key info /\ scanned_record path info.

(** on a registry that already has every key the method leaves behind, the
    method ends in the same way and changes nothing *)
Definition replayable {A : Type} (m : M A) : Prop :=
  forall mods mods2 : registry,
    dom (snd (m mods)) ⊆ dom mods2 -> m mods2 = (fst (m mods), mods2).

(** the method adds at most [n] records *)
Definition adds_at_most (n : nat) {A : Type} (m : M A) : Prop :=
  forall mods : registry, (size (snd (m mods)) <= size mods + n)%nat.

End Acts.

(** ** Candidate files *)

(** the suffix test of [PathHandler] *)
Definition is_candidate (full_path : string) : bool :=
  Str.endswith full_path ".litemod" || Str.endswith full_path ".zip"
  || Str.endswith full_path ".jar".

(** some file under the folder passes the suffix test *)
Fixpoint has_candidate (folder_path : string) (node : fsnode) {struct node} : bool :=
  match node with
  | FsFile _ => false
  | FsDir items =>
      existsb (fun it : string * fsnode =>
                 match snd it with
                 | FsDir _ => has_candidate (path_join folder_path (fst it)) (snd it)
                 | FsFile _ => is_candidate (path_join folder_path (fst it))
                 end) items
  end.

(** a folder of documents, an upper-case suffix and a nested folder *)
Definition other_files : fsnode :=
  FsDir [("readme.txt", FsFile None);
         ("Mod.JAR", FsFile None);
         ("config", FsDir [("settings.json", FsFile None)])].

(** the record that the walk makes of [Sample.fabric_client_jar] *)
Definition minimap_record : ModInfo :=
  {| modid := PStr "minimap"; name := PStr "Mini Map"; version := PStr "1.0";
     side := PStr "client_only"; loader := PStr "fabric";
     reasons := PStrs ["[meta/fabric] fabric.mod.json: environment=client"];
     debug := PDict [("environment", PStr "client");
                     ("entrypoints_keys", PList [PStr "main"])];
     source_files := PStrs ["mods/minimap.jar"] |}.

(** ** Snapshots as documents *)

Section SnapshotRecords.
Context `{PyLib}.

(** the record that the restore loop builds from an object *)
Definition record_of_dict (d : list (string * pyval)) : ModInfo :=
  {| modid := Py.dict_get d "modid" (PStr "");
     name := Py.dict_get d "name" (PStr "");
     version := Py.dict_get d "version" (PStr "");
     side := Py.dict_get d "side" PNone;
     loader := Py.dict_get d "loader" PNone;
     reasons := Py.dict_get d "reasons" PNone;
     debug := Py.dict_get d "debug" PNone;
     source_files := Py.dict_get d "source_files" PNone |}.

(** the first of the objects whose record belongs under the key *)
Definition first_under (k : string) (ds : list (list (string * pyval))) : option ModInfo :=
  find (fun r => String.eqb (composite_key r) k) (map record_of_dict ds).

End SnapshotRecords.

(** [v is None] *)
Definition is_none (v : pyval) : bool :=
  match v with
  | PNone => true
  | _ => false
  end.

(** the fields of a record in the order of the dataclass *)
Definition fields (r : ModInfo) : list (string * pyval) :=
  [("modid", modid r); ("name", name r); ("version", version r); ("side", side r);
   ("loader", loader r); ("reasons", reasons r); ("debug", debug r);
   ("source_files", source_files r)].

(** [asdict(mod_info)] without the fields that are [None] *)
Definition asdict_clean (r : ModInfo) : pyval :=
  PDict (List.filter (fun kv : string * pyval => negb (is_none (snd kv))) (fields r)).

(** the document that [SaveToJson] builds, [items] being [self.mods.items()]
    in the order of the dictionary *)
Definition snapshot_document (items : list (string * ModInfo))
    (current_path timestamp : string) : pyval :=
  PDict [("metadata", PDict [("current_path", PStr current_path);
                             ("timestamp", PStr timestamp)]);
         ("mods", PList (map (fun kv : string * ModInfo => asdict_clean (snd kv)) items))].

(** the file name of a snapshot *)
Definition snapshot_name (timestamp : string) : string :=
  "ModelInfo_" +:+ timestamp +:+ ".json".

(** writing a file of a directory: replaced when present, added otherwise *)
Fixpoint write_file (f : string) (text : string) (dir : list (string * option string))
    : list (string * option string) :=
  match dir with
  | [] => [(f, Some text)]
  | (n, c) :: dir' =>
      if String.eqb n f then (f, Some text) :: dir' else (n, c) :: write_file f text dir'
  end.

(** [SaveToJson(record_dir, current_path)] when nothing fails: [json_dumps]
    is [json.dump] with its layout options, [timestamp] the time of the
    call; the directory is created when it is missing *)
Definition SaveToJson (json_dumps : pyval -> string) (items : list (string * ModInfo))
    (current_path timestamp : string) (rd : record_dir) : record_dir :=
  let text := json_dumps (snapshot_document items current_path timestamp) in
  Some (write_file (snapshot_name timestamp) text
          (match rd with Some dir => dir | None => [] end)).

(** ** The export filter of [modOperator] *)

(** the sides that [filter_server_and_unknown] keeps *)
Definition exported_sides : list string := ["server_only"; "unknown"; "risky"].

(** [mod_info.side in ['server_only', 'unknown', 'risky']] *)
Definition side_exported (r : ModInfo) : bool :=
  match side r with
  | PStr s => existsb (String.eqb s) exported_sides
  | _ => false
  end.

(** the dictionary that [filter_server_and_unknown] builds and returns *)
Definition filter_server_and_unknown (mods : registry) : registry :=
  filter (fun kv : string * ModInfo => side_exported (snd kv) = true) mods.

(** ** Sample snapshots *)

Module Snapshots.

Definition first_record : ModInfo :=
  {| modid := PStr "oldmod"; name := PStr "Old Mod"; version := PStr "2.3";
     side := PStr "risky"; loader := PStr "forge_legacy";
     reasons := PStrs ["[meta/forge_legacy] forge legacy: mcmod.info has no reliable sided metadata"];
     debug := PNone; source_files := PStrs ["mods/old.jar"] |}.

Definition second_record : ModInfo :=
  {| modid := PStr "minimap"; name := PStr "Mini Map"; version := PStr "1.0";
     side := PStr "client_only"; loader := PStr "fabric";
     reasons := PStrs ["[meta/fabric] fabric.mod.json: environment=client"];
     debug := PDict [("environment", PStr "client")];
     source_files := PStrs ["mods/minimap.jar"] |}.

(** a registry of two records, each under its composite key *)
Definition two_mods : registry :=
  {[ "oldmod_forge_legacy_2.3" := first_record; "minimap_fabric_1.0" := second_record ]}.

Definition two_items : list (string * ModInfo) :=
  [("minimap_fabric_1.0", second_record); ("oldmod_forge_legacy_2.3", first_record)].

(** the document saved from [two_mods] *)
Definition saved_doc : pyval := snapshot_document two_items "/mods" "20240102_030405".

(** a legacy list: two objects of one identity, then a string, then an
    object *)
Definition broken_objects : list (list (string * pyval)) :=
  [[("modid", PStr "a"); ("name", PStr "First"); ("version", PStr "1")];
   [("modid", PStr "a"); ("name", PStr "Second"); ("version", PStr "1")]].

Definition broken_doc : pyval :=
  PList (map PDict broken_objects ++ [PStr "oops"; PDict [("modid", PStr "late")]])%list.

Definition legacy_doc : pyval := PList (map PDict broken_objects).

Definition documents : list pyval := [saved_doc; broken_doc; legacy_doc].

Definition lib : PyLib := {|
  json_loads := fun s =>
    match find (fun v => String.eqb (Sample.to_json v) s) documents with
    | Some v => Ok v
    | None => Raise JSONDecodeError
    end;
  toml_loads := fun _ => None;
  decode_utf8 := fun s => if Sample.is_ascii s then Some s else None;
  decode_utf8_ignore := fun s => Str.filter (fun c => Nat.ltb (nat_of_ascii c) 128) s;
  py_repr := fun _ => "<object>"
|}.

(** a record directory with an older snapshot, a broken one and a file that
    is not a snapshot *)
Definition old_dir : record_dir :=
  Some [("ModelInfo_20230101_000000.json", Some (Sample.to_json legacy_doc));
        ("notes.txt", Some "zzz");
        ("ModelInfo_20220101_000000.json", Some (Sample.to_json broken_doc))].

End Snapshots.

(** ** A sample forge archive *)

Definition crlf : string := String "013"%char (String "010"%char EmptyString).

(** a manifest with its version on the second line *)
Definition manifest_text : string :=
  "Manifest-Version: 1.0" +:+ crlf +:+ "Implementation-Version: 1.2.3 " +:+ crlf.

Definition forge_jar : archive :=
  [("META-INF/mods.toml", Intact "modLoader"); ("META-INF/MANIFEST.MF", Intact manifest_text)].

(** the same manifest, damaged: it ends within its first block *)
Definition forge_jar_damaged : archive :=
  [("META-INF/mods.toml", Intact "modLoader"); ("META-INF/MANIFEST.MF", Damaged manifest_text)].

(** the same manifest followed by a block of other bytes, damaged: its two
    lines are in a block that does not reach the end *)
Definition forge_jar_damaged_late : archive :=
  [("META-INF/mods.toml", Intact "modLoader");
   ("META-INF/MANIFEST.MF", Damaged (manifest_text +:+ filler (Z.to_nat 4096) ""))].

(** ** The parts of the reasons of a verdict *)




(** * Properties *)

(** ** The decision engine *)

Lemma decide_client_only loader mr mh mrs ch crs :
  _decide_side loader "client_only" mr mh mrs ch crs
  = ("client_only", map (meta_tag loader) mr).
Proof. reflexivity. Qed.

Lemma decide_server_only loader mr mh mrs ch crs :
  _decide_side loader "server_only" mr mh mrs ch crs
  = if (ch || mh)%bool
    then ("risky",
          (((map (meta_tag loader) mr ++ map mixin_tag mrs) ++ map class_tag crs)
             ++ [WARNING])%list)
    else ("server_only", map (meta_tag loader) mr).
Proof. reflexivity. Qed.

Lemma is_str_lower_exact (s : string) :
  Str.lower s = s -> Py.is_str_lower (PStr s) s = true.
Proof. intros E. simpl. rewrite E. apply String.eqb_refl. Qed.

(** C2.  With a server-only meta-side guess, a hit of either scanner gives
    the verdict risky and the reasons contain the mis-packaging warning; with
    no hit the verdict is server-only. *)
Theorem server_only_verdict (loader : string) (mr mrs crs : list string) (mh ch : bool) :
  ((ch = true \/ mh = true) ->
     fst (_decide_side loader "server_only" mr mh mrs ch crs) = "risky"
     /\ In WARNING (snd (_decide_side loader "server_only" mr mh mrs ch crs)))
  /\ ((ch = false /\ mh = false) ->
     fst (_decide_side loader "server_only" mr mh mrs ch crs) = "server_only").
Proof.
  rewrite decide_server_only. split.
  - intros Hhit.
    assert (E : (ch || mh)%bool = true) by (destruct Hhit; subst; auto using orb_true_r).
    rewrite E. split; [reflexivity|].
    simpl. apply in_or_app. right. left. reflexivity.
  - intros [-> ->]. reflexivity.
Qed.

Lemma server_only_verdict_witness :
  fst (_decide_side "quilt" "server_only" ["r"] false [] true ["c"]) = "risky"
  /\ In WARNING (snd (_decide_side "quilt" "server_only" ["r"] false [] true ["c"])).
Proof.
  apply (server_only_verdict "quilt" ["r"] [] ["c"] false true).
  left. reflexivity.
Defined.

(** C3.  With a meta-side guess of both or unknown: a class-marker hit gives
    risky; otherwise a mixin hit gives both; otherwise the verdict is both
    for both and unknown for unknown. *)
Theorem undeclared_verdict (loader meta_side : string) (mr mrs crs : list string)
    (mh ch : bool) :
  meta_side = "both" \/ meta_side = "unknown" ->
  let verdict := fst (_decide_side loader meta_side mr mh mrs ch crs) in
  (ch = true -> verdict = "risky")
  /\ (ch = false -> mh = true -> verdict = "both")
  /\ (ch = false -> mh = false -> meta_side = "both" -> verdict = "both")
  /\ (ch = false -> mh = false -> meta_side = "unknown" -> verdict = "unknown").
Proof.
  intros [-> | ->]; cbv zeta; repeat split; intros; subst; try reflexivity; discriminate.
Qed.

Lemma undeclared_verdict_witness :
  fst (_decide_side "forge" "unknown" ["r"] true ["m"] true ["c"]) = "risky".
Proof.
  apply (undeclared_verdict "forge" "unknown" ["r"] ["m"] ["c"] true true).
  - right. reflexivity.
  - reflexivity.
Defined.


(** Markers placed after the byte cap of an entry and after the entry cap
    give no hit; without the caps the same archive hits twice. *)
Example markers_beyond_caps :
  scan_class_default beyond_caps = (false, [])
  /\ fst (_scan_class_bytes_for_client_markers beyond_caps 301 (-1)) = true.
Proof. split; vm_compute; reflexivity. Qed.

(** ** Insertion into the registry *)

Lemma add_if_absent_ok key info (mods : registry) :
  fst (add_if_absent key info mods) = Ok tt.
Proof.
  unfold add_if_absent, bind, has_key, set_key, ret.
  destruct (bool_decide (is_Some (mods !! key))); reflexivity.
Qed.

Lemma add_if_absent_present key info (mods : registry) r :
  mods !! key = Some r -> add_if_absent key info mods = (Ok tt, mods).
Proof.
  intros Hk. unfold add_if_absent, bind, has_key, ret.
  rewrite bool_decide_eq_true_2; [reflexivity | rewrite Hk; eauto].
Qed.

Lemma add_if_absent_absent key info (mods : registry) :
  mods !! key = None -> add_if_absent key info mods = (Ok tt, <[key := info]> mods).
Proof.
  intros Hk. unfold add_if_absent, bind, has_key, set_key.
  rewrite bool_decide_eq_false_2; [reflexivity | rewrite Hk; intros [? ?]; discriminate].
Qed.

Lemma add_if_absent_keeps key info (mods : registry) k r :
  mods !! k = Some r -> snd (add_if_absent key info mods) !! k = Some r.
Proof.
  intros Hk. destruct (mods !! key) as [r'|] eqn:E.
  - rewrite (add_if_absent_present _ _ _ _ E). exact Hk.
  - rewrite (add_if_absent_absent _ _ _ E). simpl.
    rewrite lookup_insert_ne; [exact Hk | congruence].
Qed.

Lemma add_if_absent_new key info (mods : registry) k r :
  mods !! k = None -> snd (add_if_absent key info mods) !! k = Some r -> r = info.
Proof.
  intros Hk. destruct (mods !! key) as [r'|] eqn:E.
  - rewrite (add_if_absent_present _ _ _ _ E). simpl. congruence.
  - rewrite (add_if_absent_absent _ _ _ E). simpl.
    destruct (decide (key = k)) as [->|Hne].
    + rewrite lookup_insert_eq. congruence.
    + rewrite lookup_insert_ne by exact Hne. congruence.
Qed.

(** ** The client declaration *)

Lemma extract_fabric_client fabric_json ms mr dbg :
  Py.assoc fabric_json "environment" = Some (PStr "client") ->
  _extract_fabric_side_from_metadata fabric_json = Ok (ms, mr, dbg) ->
  ms = "client_only".
Proof.
  intros Henv. unfold _extract_fabric_side_from_metadata, Py.dict_get at 1 2.
  rewrite Henv.
  destruct (Py.keys _) as [ks|e]; simpl; [|discriminate].
  intros [= <- _ _]. reflexivity.
Qed.

Section ClientDeclared.
Context `{PyLib}.

(** C1.  A client-only meta-side guess gives the verdict client-only whatever
    the two scanner flags and reasons are.  The fabric extractor guesses
    client-only for every metadata object whose environment is exactly
    "client", and a record that [FabricModHandler] adds for such an archive
    has the side client-only; the quilt handler guesses client-only for that
    environment as well. *)
Theorem client_only_is_final :
  (forall loader mr mh mrs ch crs,
      fst (_decide_side loader "client_only" mr mh mrs ch crs) = "client_only")
  /\ (forall fabric_json ms mr dbg,
      Py.assoc fabric_json "environment" = Some (PStr "client") ->
      _extract_fabric_side_from_metadata fabric_json = Ok (ms, mr, dbg) ->
      forall loader mh mrs ch crs,
        fst (_decide_side loader ms mr mh mrs ch crs) = "client_only")
  /\ (forall folder_path z txt data (mods : registry) k r,
      safeRead_from_zip z "fabric.mod.json" = Some txt ->
      JSONClean txt = Ok (PDict data) ->
      Py.assoc data "environment" = Some (PStr "client") ->
      mods !! k = None ->
      snd (FabricModHandler folder_path (Some z) mods) !! k = Some r ->
      side r = PStr "client_only")
  /\ fst (quilt_meta (PStr "client")) = "client_only".
Proof.
  split; [reflexivity|]. split; [|split; [|reflexivity]].
  - intros fabric_json ms mr dbg Henv Hex loader mh mrs ch crs.
    rewrite (extract_fabric_client _ _ _ _ Henv Hex). reflexivity.
  - intros folder_path z txt data mods k r Hread Hclean Henv Hk.
    unfold FabricModHandler, bind, lift, ZipFile.
    destruct (negb (in_namelist "fabric.mod.json" z)); [simpl; congruence|].
    rewrite Hread.
    destruct (String.eqb txt ""); [simpl; congruence|].
    rewrite Hclean.
    destruct (_extract_fabric_side_from_metadata data) as [[[ms mr] dbg]|e] eqn:Hex;
      [|simpl; congruence].
    rewrite (extract_fabric_client _ _ _ _ Henv Hex).
    destruct (_scan_mixins_for_client_sections z) as [[mh mrs]|e]; [|simpl; congruence].
    destruct (scan_class_default z) as [ch crs].
    rewrite decide_client_only.
    destruct (Py.truthy _); [|simpl; congruence].
    intros Hr. apply add_if_absent_new in Hr; [|exact Hk].
    subst r. reflexivity.
Qed.

End ClientDeclared.

Lemma client_only_is_final_witness :
  fst (_decide_side "fabric" "client_only" ["fabric.mod.json: environment=client"]
         true ["m"] true ["c"]) = "client_only"
  /\ side <$> (snd (@FabricModHandler Sample.lib "mods/minimap.jar"
                      (Some Sample.fabric_client_jar) ∅) !! "minimap_fabric_1.0")
     = Some (PStr "client_only").
Proof.
  destruct (@client_only_is_final Sample.lib) as (_ & Hmeta & Hrec & _). split.
  - apply (Hmeta [("environment", PStr "client")] "client_only"
             ["fabric.mod.json: environment=client"]
             [("environment", PStr "client"); ("entrypoints_keys", PList [])]);
      reflexivity.
  - destruct (snd (@FabricModHandler Sample.lib "mods/minimap.jar"
                     (Some Sample.fabric_client_jar) ∅) !! "minimap_fabric_1.0")
      as [r|] eqn:E; [|vm_compute in E; discriminate E].
    simpl. f_equal.
    eapply (Hrec "mods/minimap.jar" Sample.fabric_client_jar _ _ ∅ "minimap_fabric_1.0" r);
      [reflexivity | reflexivity | reflexivity | apply lookup_empty | exact E].
Defined.

(** ** The caps of the class marker scanner *)













(** ** The registry only grows *)

Section Growth.
Context `{PyLib}.

Lemma grows_refl (mods : registry) : grows mods mods.
Proof. split; auto. Qed.

Lemma grows_trans (m1 m2 m3 : registry) : grows m1 m2 -> grows m2 m3 -> grows m1 m3.
Proof.
  intros [K12 N12] [K23 N23]. split.
  - auto.
  - intros k r H3. destruct (N23 k r H3) as [H2|[H2 Hk]].
    + auto.
    + right. split; [|exact Hk].
      destruct (m1 !! k) as [r1|] eqn:E1; [|reflexivity].
      rewrite (K12 k r1 E1) in H2. discriminate H2.
Qed.

Lemma grows_insert_absent key info (mods : registry) :
  mods !! key = None -> key = composite_key info -> grows mods (<[key := info]> mods).
Proof.
  intros Hnone Hkey. split.
  - intros k r Hk. rewrite lookup_insert_ne; [exact Hk | congruence].
  - intros k r. destruct (decide (key = k)) as [<-|Hne].
    + rewrite lookup_insert_eq. intros [= <-]. right. auto.
    + rewrite lookup_insert_ne by exact Hne. auto.
Qed.

Lemma growing_ret {A : Type} (a : A) : growing (ret a).
Proof. intros mods. apply grows_refl. Qed.

Lemma growing_lift {A : Type} (r : result A) : growing (lift r).
Proof. intros mods. apply grows_refl. Qed.

Lemma growing_bind {A B : Type} (m : M A) (k : A -> M B) :
  growing m -> (forall a, growing (k a)) -> growing (bind m k).
Proof.
  intros Hm Hk mods. unfold bind. specialize (Hm mods).
  destruct (m mods) as [[a|e] mods']; simpl in *.
  - eapply grows_trans; [exact Hm | apply Hk].
  - exact Hm.
Qed.

Lemma growing_add_if_absent key info :
  key = composite_key info -> growing (add_if_absent key info).
Proof.
  intros Hkey mods. destruct (mods !! key) as [r|] eqn:E.
  - rewrite (add_if_absent_present _ _ _ _ E). apply grows_refl.
  - rewrite (add_if_absent_absent _ _ _ E). now apply grows_insert_absent.
Qed.

Lemma growing_unless_present key (k : M unit) :
  (forall mods : registry, mods !! key = None -> grows mods (snd (k mods))) ->
  growing (bind (has_key key) (fun present => if present then ret tt else k)).
Proof.
  intros Hk mods. unfold bind, has_key.
  destruct (mods !! key) as [r|] eqn:E.
  - rewrite bool_decide_eq_true_2 by eauto. apply grows_refl.
  - rewrite bool_decide_eq_false_2 by (intros [? ?]; discriminate). now apply Hk.
Qed.

Lemma growing_try_pass (m : M unit) : growing m -> growing (try_pass m).
Proof.
  intros Hm mods. unfold try_pass. specialize (Hm mods).
  destruct (m mods) as [[a|e] mods']; exact Hm.
Qed.

Lemma make_mod_key_or_unknown (m l v : pyval) :
  _make_mod_key m (Py.or l (PStr "unknown")) (Py.or v (PStr "unknown"))
  = _make_mod_key m l v.
Proof.
  unfold _make_mod_key, Py.or.
  destruct (Py.truthy l) eqn:El, (Py.truthy v) eqn:Ev; rewrite ?El, ?Ev; reflexivity.
Qed.

Ltac growing_step :=
  first
    [ apply growing_ret
    | apply growing_lift
    | apply growing_try_pass
    | apply growing_add_if_absent;
      first [reflexivity | exact (make_mod_key_or_unknown _ _ _)]
    | apply growing_unless_present;
      let mods := fresh "mods" in
      let Hnone := fresh "Hnone" in
      intros mods Hnone; unfold bind, lift;
      match goal with
      | |- context [Py.get ?d ?k ?x] => destruct (Py.get d k x)
      end; simpl;
      [apply grows_insert_absent; [exact Hnone | reflexivity] | apply grows_refl]
    | apply growing_bind; [|intros ?; cbv beta]
    | match goal with
      | |- growing (match ?x with _ => _ end) => destruct x
      end ].

Ltac growing_auto := repeat growing_step.

Lemma UniversalHandler_growing folder_path file :
  growing (UniversalHandler folder_path file).
Proof.
  unfold UniversalHandler. growing_auto.
Qed.

Lemma FabricModHandler_growing folder_path file :
  growing (FabricModHandler folder_path file).
Proof. unfold FabricModHandler. growing_auto. Qed.

Lemma RiftModHandler_growing folder_path file :
  growing (RiftModHandler folder_path file).
Proof. unfold RiftModHandler. growing_auto. Qed.

Lemma QuiltModHandler_growing folder_path file :
  growing (QuiltModHandler folder_path file).
Proof. unfold QuiltModHandler. growing_auto. Qed.

Lemma LForgeModHandler_growing folder_path file :
  growing (LForgeModHandler folder_path file).
Proof. unfold LForgeModHandler. growing_auto. Qed.

Lemma MForgeModHandler_growing folder_path file :
  growing (MForgeModHandler folder_path file).
Proof. unfold MForgeModHandler. growing_auto. Qed.

Lemma NeoForgeModHandler_growing folder_path file :
  growing (NeoForgeModHandler folder_path file).
Proof. unfold NeoForgeModHandler. growing_auto. Qed.

Lemma SpecialHandler_growing folder_path file :
  growing (SpecialHandler folder_path file).
Proof. unfold SpecialHandler. growing_auto. Qed.

Lemma JarFileHandler_growing folder_path file :
  growing (JarFileHandler folder_path file).
Proof.
  unfold JarFileHandler. apply growing_bind; [apply growing_lift|]. intros z.
  repeat match goal with
         | |- growing (if ?b then _ else _) => destruct b
         end;
    auto using FabricModHandler_growing, RiftModHandler_growing,
      QuiltModHandler_growing, LForgeModHandler_growing, MForgeModHandler_growing,
      NeoForgeModHandler_growing, SpecialHandler_growing.
Qed.

Lemma handle_file_growing full_path content :
  growing (handle_file full_path content).
Proof.
  unfold handle_file.
  repeat match goal with
         | |- growing (if ?b then _ else _) => destruct b
         end;
    auto using UniversalHandler_growing, JarFileHandler_growing, growing_ret.
Qed.

Lemma fsnode_nested_ind (P : fsnode -> Prop) :
  (forall content, P (FsFile content)) ->
  (forall items, Forall (fun it => P (snd it)) items -> P (FsDir items)) ->
  forall node, P node.
Proof.
  intros Hfile Hdir. fix IH 1. intros [items|content].
  - apply Hdir. induction items as [|[item child] rest IHrest]; constructor.
    + apply IH.
    + exact IHrest.
  - apply Hfile.
Qed.

Lemma PathHandler_loop_growing visit folder_path items :
  Forall (fun it => forall full_path, growing (visit full_path (snd it))) items ->
  growing (PathHandler_loop visit folder_path items).
Proof.
  induction 1 as [|[item child] rest Hchild _ IHrest]; simpl.
  - apply growing_ret.
  - apply growing_bind; [apply Hchild | intros _; exact IHrest].
Qed.

Lemma PathHandler_growing node :
  forall folder_path, growing (PathHandler folder_path node).
Proof.
  induction node as [content|items IHitems] using fsnode_nested_ind;
    intros folder_path; simpl.
  - apply growing_lift.
  - apply PathHandler_loop_growing.
    induction IHitems as [|[item child] rest Hchild _ IHrest]; constructor.
    + intros full_path. simpl in *. destruct child as [sub|content].
      * apply Hchild.
      * apply handle_file_growing.
    + exact IHrest.
Qed.

Lemma load_mod_growing mod_dict : growing (load_mod mod_dict).
Proof. unfold load_mod. growing_auto. Qed.

Lemma load_mods_growing l : growing (load_mods l).
Proof.
  induction l as [|mod_dict rest IH]; simpl.
  - apply growing_ret.
  - apply growing_bind; [apply load_mod_growing | intros _; exact IH].
Qed.

(** C6.  The key of a record is its id, its loader or "unknown" and its
    version or "unknown", joined by "_".  An insertion under a key that is
    present leaves the registry as it is.  Through a whole directory walk,
    through the handler of any single file and through the loop that restores
    a snapshot, every entry already in the registry stays as it is, and every
    entry that appears sits under the composite key of its record. *)
Theorem first_seen_wins :
  (forall (id : string) (l v : option string),
      _make_mod_key (PStr id) (opt_val l) (opt_val v)
      = id +:+ "_" +:+ or_unknown l +:+ "_" +:+ or_unknown v)
  /\ (forall key info (mods : registry) r,
      mods !! key = Some r -> add_if_absent key info mods = (Ok tt, mods))
  /\ (forall folder_path node (mods : registry),
      grows mods (snd (PathHandler folder_path node mods)))
  /\ (forall full_path content (mods : registry),
      grows mods (snd (handle_file full_path content mods)))
  /\ (forall l (mods : registry), grows mods (snd (load_mods l mods))).
Proof.
  split; [|split; [|split; [|split]]].
  - intros id [l|] [v|]; unfold _make_mod_key, Py.or; simpl;
      repeat match goal with
             | |- context [String.eqb ?s ""] => destruct (String.eqb s "")
             end; reflexivity.
  - apply add_if_absent_present.
  - intros folder_path node. apply PathHandler_growing.
  - intros full_path content. apply handle_file_growing.
  - intros l. apply load_mods_growing.
Qed.

(** C10.  [SpecialHandler] returns normally and leaves the registry as it
    is, for every file; so does the dispatcher on every archive that holds
    none of the trigger entries. *)
Theorem special_handler_frame :
  (forall folder_path file (mods : registry),
      SpecialHandler folder_path file mods = (Ok tt, mods))
  /\ (forall folder_path z (mods : registry),
      routed_to_special z = true ->
      JarFileHandler folder_path (Some z) mods = (Ok tt, mods)).
Proof.
  assert (Hspecial : forall folder_path file (mods : registry),
             SpecialHandler folder_path file mods = (Ok tt, mods)).
  { intros folder_path [z|] mods; unfold SpecialHandler, try_pass, bind, lift; simpl.
    - destruct (special_verdict z) as [[sd rs]|e]; reflexivity.
    - reflexivity. }
  split; [exact Hspecial|].
  intros folder_path z mods Hroute.
  unfold routed_to_special in Hroute. simpl in Hroute.
  repeat (apply andb_prop in Hroute; destruct Hroute as [?Hno Hroute]).
  repeat match goal with
         | Hno : negb _ = true |- _ => apply negb_true_iff in Hno
         end.
  unfold JarFileHandler, bind, lift. simpl.
  repeat match goal with
         | Hno : in_namelist _ z = false |- _ => rewrite Hno; clear Hno
         end.
  apply Hspecial.
Qed.

End Growth.

Lemma first_seen_wins_witness :
  add_if_absent "kept_fabric_1"
    {| modid := PStr "kept"; name := PStr "Another Name"; version := PStr "1";
       side := PStr "risky"; loader := PStr "fabric"; reasons := PNone;
       debug := PNone; source_files := PNone |}
    Sample.one_mod
  = (Ok tt, Sample.one_mod).
Proof.
  destruct (@first_seen_wins Sample.lib) as (_ & Hkeep & _).
  apply (Hkeep "kept_fabric_1" _ Sample.one_mod Sample.some_record).
  reflexivity.
Defined.

(** Two archives with the same id, loader and version: the record of the
    first one read is the one kept. *)
Example duplicate_identity_keeps_first :
  name <$> (snd (@PathHandler Sample.lib "mods" Sample.mods_folder_duplicate ∅)
              !! "minimap_fabric_1.0") = Some (PStr "Mini Map")
  /\ size (snd (@PathHandler Sample.lib "mods" Sample.mods_folder_duplicate ∅)) = 1%nat.
Proof. split; reflexivity. Qed.

Lemma special_handler_frame_witness :
  @JarFileHandler Sample.lib "mods/optifine.jar" (Some Sample.bare_jar) Sample.one_mod
  = (Ok tt, Sample.one_mod).
Proof.
  destruct (@special_handler_frame Sample.lib) as (_ & Hroute).
  apply (Hroute "mods/optifine.jar" Sample.bare_jar Sample.one_mod).
  reflexivity.
Defined.

(** ** Loading a snapshot *)

Section Loading.
Context `{PyLib}.

Lemma list_index_nil {A : Type} (index : Z) :
  @list_index A [] index = Raise IndexError.
Proof.
  unfold list_index. destruct (_ <? 0); [reflexivity|].
  destruct (Z.to_nat _); reflexivity.
Qed.

Lemma LoadFromJson_selected dir index (mods : registry) :
  LoadFromJson (Some dir) index mods
  = match selected_snapshot (Some dir) index with
    | None => (Ok PNone, mods)
    | Some f =>
        match load_json_file (file_content dir f) with
        | Raise e => (Ok PNone, ∅)
        | Ok data =>
            match snapshot_shape data with
            | None => (Ok PNone, ∅)
            | Some (metadata, mods_data) =>
                match (run l <- lift (py_iter mods_data) ;;
                       run _ <- load_mods l ;;
                       ret metadata) ∅ with
                | (Ok metadata, mods') => (Ok metadata, mods')
                | (Raise _, mods') => (Ok PNone, mods')
                end
            end
        end
    end.
Proof.
  unfold LoadFromJson, LoadFromJson_try, selected_snapshot, snapshot_files.
  destruct (List.filter is_snapshot_name (map fst dir)) as [|f0 files] eqn:Ef.
  - simpl. destruct (index >=? _); [reflexivity|].
    rewrite list_index_nil. reflexivity.
  - set (sorted_files := rev (Str.sorted (f0 :: files))).
    destruct (index >=? Z.of_nat (length sorted_files)); [reflexivity|].
    unfold bind at 1, lift at 1.
    destruct (list_index sorted_files index) as [f|e]; [|reflexivity].
    unfold bind at 1, clear. unfold bind at 1, lift at 1.
    destruct (load_json_file (file_content dir f)) as [data|e]; [|reflexivity].
    destruct (snapshot_shape data) as [[metadata mods_data]|]; reflexivity.
Qed.

(** C5, amended.  When the selected snapshot cannot be read or parsed, or
    its document has neither recognised shape, the load reports no data and
    leaves the registry empty, whatever it held.  When no snapshot is
    selected (no record directory, no snapshot file, index out of range) the
    load reports no data and leaves the registry as it was. *)
Theorem load_failure_state :
  (forall dir index f (mods : registry),
      selected_snapshot (Some dir) index = Some f ->
      match load_json_file (file_content dir f) with
      | Ok data => snapshot_shape data = None
      | Raise _ => True
      end ->
      LoadFromJson (Some dir) index mods = (Ok PNone, ∅))
  /\ (forall rd index (mods : registry),
      selected_snapshot rd index = None ->
      LoadFromJson rd index mods = (Ok PNone, mods)).
Proof.
  split.
  - intros dir index f mods Hsel Hfail.
    rewrite LoadFromJson_selected, Hsel.
    destruct (load_json_file (file_content dir f)) as [data|e]; [|reflexivity].
    rewrite Hfail. reflexivity.
  - intros [dir|] index mods Hsel; [|reflexivity].
    rewrite LoadFromJson_selected, Hsel. reflexivity.
Qed.

End Loading.

Lemma load_failure_state_witness :
  @LoadFromJson Sample.lib Sample.scalar_dir 0 Sample.one_mod = (Ok PNone, ∅)
  /\ @LoadFromJson Sample.lib None 0 Sample.one_mod = (Ok PNone, Sample.one_mod).
Proof.
  destruct (@load_failure_state Sample.lib) as (Hcleared & Hkept). split.
  - apply (Hcleared _ 0 "ModelInfo_20240101_000000.json" Sample.one_mod);
      reflexivity.
  - apply (Hkept None 0 Sample.one_mod). reflexivity.
Defined.

(** C5 as stated fails: a load that cannot read the selected snapshot
    reports no data, and the registry that held a record is not left as it
    was. *)
Lemma load_failure_not_preserving :
  fst (@LoadFromJson Sample.lib Sample.unreadable_dir 0 Sample.one_mod) = Ok PNone
  /\ snd (@LoadFromJson Sample.lib Sample.unreadable_dir 0 Sample.one_mod)
     <> Sample.one_mod.
Proof.
  split; [reflexivity|].
  intros E. apply (f_equal (fun m : registry => m !! "kept_fabric_1")) in E.
  vm_compute in E. discriminate E.
Qed.

(** ** Failures during a walk *)

(** C4 fails on the code.  A file with the suffix .jar that is not a valid
    archive makes the walk raise at that file: the valid archive after it is
    never read, although on its own it yields a record.  An extractor also
    raises past its boundary on metadata whose entry points are a list. *)
Theorem invalid_archive_aborts_walk :
  @PathHandler Sample.lib "mods" Sample.mods_folder ∅ = (Raise BadZipFile, ∅)
  /\ fst (@PathHandler Sample.lib "mods" Sample.mods_folder_valid_only ∅) = Ok tt
  /\ is_Some (snd (@PathHandler Sample.lib "mods" Sample.mods_folder_valid_only ∅)
                !! "minimap_fabric_1.0")
  /\ fst (@FabricModHandler Sample.lib "mods/broken.jar"
            (Some Sample.fabric_broken_jar) ∅) = Raise AttributeError.
Proof.
  repeat split; try reflexivity.
  vm_compute. eauto.
Qed.

(** ** The handlers that scan *)

Section Scanning.
Context `{PyLib}.

Lemma adds_only_ret (P : ModInfo -> Prop) {A : Type} (a : A) : adds_only P (ret a).
Proof. intros mods k r Hnone Hsome. simpl in Hsome. congruence. Qed.

Lemma adds_only_bind_lift (P : ModInfo -> Prop) {A B : Type} (x : result A) (k : A -> M B) :
  (forall a, x = Ok a -> adds_only P (k a)) -> adds_only P (bind (lift x) k).
Proof.
  intros Hk mods key r Hnone. unfold bind, lift.
  destruct x as [a|e]; simpl.
  - now apply (Hk a).
  - congruence.
Qed.

Lemma adds_only_add_if_absent (P : ModInfo -> Prop) key info :
  P info -> adds_only P (add_if_absent key info).
Proof.
  intros HP mods k r Hnone Hsome.
  now rewrite (add_if_absent_new _ _ _ _ _ Hnone Hsome).
Qed.

Ltac adds_only_step :=
  first
    [ apply adds_only_ret
    | apply adds_only_add_if_absent; do 2 eexists;
      split; [reflexivity | split; reflexivity]
    | apply adds_only_bind_lift;
      let a := fresh "a" in
      let E := fresh "E" in
      intros a E; cbv beta;
      first
        [ simpl in E; injection E as <-
        | rewrite E; clear E
        | clear E ]
    | match goal with
      | |- adds_only _ (match ?x with _ => _ end) =>
          destruct x; cbv beta iota zeta delta [rbind]
      end ].

Ltac adds_only_auto := repeat adds_only_step.

(** Every record added by the rift, legacy forge, forge and neoforge
    handlers carries the merge of the guess unknown with both scanners. *)
Lemma scanning_handlers_merge folder_path z :
  adds_only (records_merge "rift" "riftmod.json: no standard sided metadata" z)
    (RiftModHandler folder_path (Some z))
  /\ adds_only
       (records_merge "forge_legacy"
          "forge legacy: mcmod.info has no reliable sided metadata" z)
       (LForgeModHandler folder_path (Some z))
  /\ adds_only
       (records_merge "forge"
          "forge mods.toml: no reliable sided metadata; using class scan" z)
       (MForgeModHandler folder_path (Some z))
  /\ adds_only
       (records_merge "neoforge"
          "neoforge mods.toml: no reliable sided metadata; using class scan" z)
       (NeoForgeModHandler folder_path (Some z)).
Proof.
  unfold records_merge, merged_unknown.
  unfold RiftModHandler, LForgeModHandler, MForgeModHandler, NeoForgeModHandler.
  split; [|split; [|split]]; adds_only_auto.
Qed.

End Scanning.

(** ** The legacy zip handler *)

(** C9 fails on the code.  [UniversalHandler] records the side unknown with
    its one fixed reason without running a scanner, on an archive for which
    the merge of an unknown guess with the two scanner results is risky, as
    [LForgeModHandler] records it for the same archive. *)
Theorem universal_handler_skips_scanners :
  (exists r,
      snd (@UniversalHandler Sample.lib "mods/old.zip" (Some Sample.legacy_zip) ∅)
        !! "oldmod_universal_2.3" = Some r
      /\ side r = PStr "unknown"
      /\ reasons r = PStrs ["legacy/zip: mcmod.info has no reliable sided metadata"])
  /\ (exists mh mrs,
        @_scan_mixins_for_client_sections Sample.lib Sample.legacy_zip = Ok (mh, mrs)
        /\ fst (_decide_side "universal" "unknown"
                  ["legacy/zip: mcmod.info has no reliable sided metadata"]
                  mh mrs
                  (fst (scan_class_default Sample.legacy_zip))
                  (snd (scan_class_default Sample.legacy_zip))) = "risky")
  /\ side <$> (snd (@LForgeModHandler Sample.lib "mods/old.jar"
                      (Some Sample.legacy_zip) ∅) !! "oldmod_forge_legacy_2.3")
     = Some (PStr "risky").
Proof.
  split; [|split; [|reflexivity]].
  - eexists. split; [vm_compute; reflexivity|]. split; reflexivity.
  - exists false, []. split; reflexivity.
Qed.

(** * Further properties *)

(** ** The range of the verdict *)

(** X1.  The verdict is one of the five sides.  It is client-only exactly
    for a client-only guess, server-only exactly for a server-only guess
    with no hit, and a class-marker hit leaves only client-only or risky. *)
Theorem decide_side_range (loader meta_side : string) (mr mrs crs : list string)
    (mh ch : bool) :
  let verdict := fst (_decide_side loader meta_side mr mh mrs ch crs) in
  In verdict verdicts
  /\ (verdict = "client_only" <-> meta_side = "client_only")
  /\ (verdict = "server_only" <->
        meta_side = "server_only" /\ ch = false /\ mh = false)
  /\ (ch = true -> verdict = "client_only" \/ verdict = "risky").
Proof.
  unfold _decide_side.
  destruct (String.eqb_spec meta_side "client_only") as [->|Hc];
    [|destruct (String.eqb_spec meta_side "server_only") as [->|Hs];
      [|destruct (String.eqb meta_side "both")]];
    destruct ch, mh; cbn -[verdicts];
    (split; [unfold verdicts; simpl; tauto|]);
    (split; [split; intros E; first [reflexivity | discriminate E | contradiction]|]);
    (split; [split;
             [intros E; first [discriminate E | auto]
             |intros (E1 & E2 & E3);
              first [reflexivity | discriminate | contradiction]]|]);
    intros E; first [discriminate E | auto].
Qed.

(** ** The fabric extractor *)

(** X2.  The fabric extractor raises exactly when the declared entry points
    are a truthy value that is not an object, and then with
    [AttributeError]; otherwise it returns one of four guesses with exactly
    one reason and the two debug fields. *)
Theorem extract_fabric_outcome (fabric_json : list (string * pyval)) :
  let ep := declared_entrypoints fabric_json in
  (Py.truthy ep && negb (is_dict ep) = true ->
     _extract_fabric_side_from_metadata fabric_json = Raise AttributeError)
  /\ (Py.truthy ep && negb (is_dict ep) = false ->
     exists guess reason dbg,
       _extract_fabric_side_from_metadata fabric_json = Ok (guess, [reason], dbg)
       /\ In guess ["client_only"; "server_only"; "both"; "unknown"]
       /\ map fst dbg = ["environment"; "entrypoints_keys"]).
Proof.
  unfold declared_entrypoints, _extract_fabric_side_from_metadata, Py.or.
  set (ep := Py.dict_get fabric_json "entrypoints" (PDict [])).
  split; intros Hep.
  - destruct ep as [|b|z|s|l|kvs]; simpl in *.
    + discriminate Hep.
    + destruct b; [reflexivity | discriminate Hep].
    + destruct (negb (z =? 0)); [reflexivity | discriminate Hep].
    + destruct (negb (s =? "")%string); [reflexivity | discriminate Hep].
    + destruct l; [discriminate Hep | reflexivity].
    + rewrite andb_false_r in Hep. discriminate Hep.
  - assert (Hk : exists ks,
               Py.keys (if Py.truthy ep then ep else PDict []) = Ok ks).
    { destruct ep as [|b|z|s|l|kvs]; simpl in *; eauto.
      - destruct b; [discriminate Hep | simpl; eauto].
      - destruct (negb (z =? 0)); [discriminate Hep | simpl; eauto].
      - destruct (negb (s =? "")%string); [discriminate Hep | simpl; eauto].
      - destruct l; [simpl; eauto | discriminate Hep].
      - destruct kvs; simpl; eauto. }
    destruct Hk as [ks ->]. simpl.
    repeat match goal with
           | |- context [if ?b then _ else _] => destruct b
           end;
      do 3 eexists; (split; [reflexivity|]); simpl; auto 6.
Qed.

(** X3.  When the entry points are an object (or absent), an environment
    that lowers to "client" gives client-only and one that lowers to
    "server" gives server-only, whatever the entry points are; otherwise the
    guess is both exactly for a main or server entry point without a client
    one, client-only exactly for a client entry point without main and
    server, and unknown in every other case. *)
Theorem fabric_guess_table (fabric_json kvs : list (string * pyval)) :
  Py.or (declared_entrypoints fabric_json) (PDict []) = PDict kvs ->
  let has k := existsb (String.eqb k) (map fst kvs) in
  exists guess reason dbg,
    _extract_fabric_side_from_metadata fabric_json = Ok (guess, [reason], dbg)
    /\ (env_is fabric_json "client" = true -> guess = "client_only")
    /\ (env_is fabric_json "client" = false -> env_is fabric_json "server" = true ->
        guess = "server_only")
    /\ (env_is fabric_json "client" = false -> env_is fabric_json "server" = false ->
        (guess = "both" <->
           (has "main" = true \/ has "server" = true) /\ has "client" = false)
        /\ (guess = "client_only" <->
           has "client" = true /\ has "main" = false /\ has "server" = false)
        /\ (guess = "both" \/ guess = "client_only" \/ guess = "unknown")).
Proof.
  unfold declared_entrypoints, env_is, _extract_fabric_side_from_metadata.
  intros ->. cbv beta iota zeta delta [rbind Py.keys].
  destruct (Py.is_str_lower _ "client") eqn:Ec.
  { do 3 eexists. split; [reflexivity|].
    repeat split; intros; try reflexivity; discriminate. }
  destruct (Py.is_str_lower _ "server") eqn:Es.
  { do 3 eexists. split; [reflexivity|].
    repeat split; intros; try reflexivity; discriminate. }
  destruct (existsb (String.eqb "main") (map fst kvs)) eqn:Em,
           (existsb (String.eqb "server") (map fst kvs)) eqn:Esv,
           (existsb (String.eqb "client") (map fst kvs)) eqn:Ecl;
    cbv beta iota delta [andb orb negb];
    do 3 eexists; (split; [reflexivity|]);
    (split; [intros; discriminate|]); (split; [intros; discriminate|]);
    intros _ _; intuition (first [discriminate | congruence | auto]).
Qed.

Lemma fabric_guess_table_witness :
  exists guess reason dbg,
    _extract_fabric_side_from_metadata
      [("environment", PStr "Client"); ("entrypoints", PDict [("main", PList [])])]
    = Ok (guess, [reason], dbg)
    /\ guess = "client_only".
Proof.
  destruct (fabric_guess_table
              [("environment", PStr "Client"); ("entrypoints", PDict [("main", PList [])])]
              [("main", PList [])] eq_refl)
    as (guess & reason & dbg & Hex & Hclient & _).
  exists guess, reason, dbg. split; [exact Hex | apply Hclient; reflexivity].
Defined.

(** ** The mixin scanner *)

Section MixinScan.
Context `{PyLib}.

Lemma scan_mixin_entry_spec (z : archive) (p : string) (st : bool * list string) :
  scan_mixin_entry z p st
  = match mixin_entry_raises z p with
    | Some e => Raise e
    | None =>
        Ok (if mixin_client_entry z p then (true, (snd st ++ [mixin_reason p])%list)
            else st)
    end.
Proof.
  unfold scan_mixin_entry, mixin_entry_raises, mixin_client_entry, mixin_text,
    has_client_section.
  destruct (Str.endswith (Str.lower p) ".json"); simpl; [|reflexivity].
  destruct (Str.startswith (Str.lower (Str.basename p)) "mixins"); simpl; [|reflexivity].
  destruct (safeRead_from_zip z p) as [txt|]; [|reflexivity].
  destruct (String.eqb txt ""); simpl; [reflexivity|].
  destruct (safeLoad_from_json txt) as [[| | | | |j]|e]; try reflexivity.
  simpl. destruct (Py.assoc j "client") as [[| | | |[|x l]|]|]; reflexivity.
Qed.

Lemma scan_mixins_loop_spec (z : archive) (names : list string) :
  forall (hit : bool) (rs : list string),
    scan_mixins_loop z names (hit, rs)
    = match first_raise z names with
      | Some e => Raise e
      | None =>
          Ok (hit || existsb (mixin_client_entry z) names,
              (rs ++ map mixin_reason (List.filter (mixin_client_entry z) names))%list)
      end.
Proof.
  induction names as [|p names IH]; intros hit rs; simpl.
  - now rewrite orb_false_r, app_nil_r.
  - rewrite scan_mixin_entry_spec.
    destruct (mixin_entry_raises z p) as [e|]; [reflexivity|].
    cbn [rbind]. destruct (mixin_client_entry z p); cbn [snd]; rewrite IH;
      destruct (first_raise z names); try reflexivity.
    + rewrite <- app_assoc. now rewrite orb_true_r.
Qed.

Lemma safeLoad_raises (txt : string) (e : exn) :
  safeLoad_from_json txt = Raise e
  <-> (exists e0, json_loads txt = Raise e0)
      /\ json_loads (Str.filter (fun c => negb (Str.is_control c)) txt) = Raise e
      /\ is_type_or_value_error e = false.
Proof.
  unfold safeLoad_from_json, JSONClean.
  destruct (json_loads txt) as [v|e0].
  - split; [discriminate | intros [[e1 E] _]; discriminate E].
  - destruct (json_loads (Str.filter _ txt)) as [v|e1]; cbn [rbind].
    + split; [now destruct v | intros (_ & E & _); discriminate E].
    + destruct (is_type_or_value_error e1) eqn:Ev; cbn [rbind].
      * split; [discriminate | intros (_ & E & Hv)]. injection E as ->. congruence.
      * split.
        -- intros [= ->]. split; [now exists e0 | now split].
        -- intros (_ & [= ->] & _). reflexivity.
Qed.

(** X4.  The mixin scanner looks at the entries whose lower-cased name ends
    in [.json] and whose lower-cased base name starts with [mixins], which
    can be read and are not empty.  When the load of such an entry raises,
    the scanner raises what the first such load raises; a load raises only
    what the parser raises on the text without its control characters, after
    it failed on the text itself, and only when that is neither a
    [TypeError] nor a [ValueError].  Otherwise the scanner reports exactly
    the entries that load to an object with a non-empty client list, one
    reason per entry in directory order.  In a result the flag is set exactly
    when the reasons are not empty. *)
Theorem mixin_scan_entries (z : archive) :
  _scan_mixins_for_client_sections z
  = match first_raise z (namelist z) with
    | Some e => Raise e
    | None =>
        Ok (existsb (mixin_client_entry z) (namelist z),
            map mixin_reason (List.filter (mixin_client_entry z) (namelist z)))
    end
  /\ (forall hit rs,
      _scan_mixins_for_client_sections z = Ok (hit, rs) -> hit = true <-> rs <> [])
  /\ (forall txt e,
      safeLoad_from_json txt = Raise e
      <-> (exists e0, json_loads txt = Raise e0)
          /\ json_loads (Str.filter (fun c => negb (Str.is_control c)) txt) = Raise e
          /\ is_type_or_value_error e = false).
Proof.
  assert (E : _scan_mixins_for_client_sections z
              = match first_raise z (namelist z) with
                | Some e => Raise e
                | None =>
                    Ok (existsb (mixin_client_entry z) (namelist z),
                        map mixin_reason
                          (List.filter (mixin_client_entry z) (namelist z)))
                end).
  { unfold _scan_mixins_for_client_sections. now rewrite scan_mixins_loop_spec. }
  split; [exact E|]. split; [|apply safeLoad_raises].
  intros hit rs. rewrite E. clear E.
  destruct (first_raise z (namelist z)); [discriminate|].
  intros [= <- <-].
  induction (namelist z) as [|p names IH]; simpl.
  - split; [discriminate | congruence].
  - destruct (mixin_client_entry z p); simpl.
    + split; [discriminate | reflexivity].
    + exact IH.
Qed.

End MixinScan.

Lemma mixin_scan_entries_witness :
  @_scan_mixins_for_client_sections Sample.lib deep_mixins_jar = Raise RecursionError
  /\ (true = true <-> [mixin_reason "mixins.client.json"] <> []).
Proof.
  destruct (@mixin_scan_entries Sample.lib deep_mixins_jar) as [E _].
  destruct (@mixin_scan_entries Sample.lib client_mixins_jar) as (_ & Hflag & _).
  split; [rewrite E; reflexivity|].
  apply (Hflag true [mixin_reason "mixins.client.json"]). reflexivity.
Defined.

(** ** The reasons of the class marker scanner *)

Lemma startswith_app (s a b : string) :
  Str.startswith s (a +:+ b) = true -> Str.startswith s a = true.
Proof.
  revert s. induction a as [|c a IH]; intros s; simpl; [now destruct s|].
  destruct s as [|d s]; [discriminate|]. simpl.
  intros E. apply andb_prop in E. destruct E as [Ec Es].
  rewrite Ec. simpl. now apply IH.
Qed.

Lemma contains_app (s a b : string) :
  Str.contains s (a +:+ b) = true -> Str.contains s a = true.
Proof.
  induction s as [|d s IH]; intros E.
  - change (Str.startswith "" (a +:+ b) || false = true) in E.
    change (Str.startswith "" a || false = true).
    rewrite orb_false_r in *. now apply (startswith_app _ a b).
  - change (Str.startswith (String d s) (a +:+ b) || Str.contains s (a +:+ b) = true) in E.
    change (Str.startswith (String d s) a || Str.contains s a = true).
    apply orb_prop in E. destruct E as [E|E].
    + now rewrite (startswith_app _ a b E).
    + rewrite (IH E). apply orb_true_r.
Qed.

Lemma marker_hits_reported (data : string) :
  Forall (fun r => In r (map marker_reason reported_markers)) (marker_hits data)
  /\ (length (marker_hits data) <= 1)%nat.
Proof.
  unfold marker_hits, markers. cbn [find].
  destruct (Str.contains data "net/minecraft/client/") eqn:E1.
  { split; [|simpl; lia].
    apply List.Forall_cons; [|apply List.Forall_nil].
    unfold reported_markers; cbn [map In]; auto. }
  destruct (Str.contains data "net/minecraft/client/MinecraftClient") eqn:E2.
  { apply (contains_app data "net/minecraft/client/" "MinecraftClient") in E2.
    rewrite E1 in E2. discriminate E2. }
  repeat match goal with
         | |- context [if ?b then _ else _] => destruct b
         end;
    (split; [|simpl; lia]).
  all: first [apply List.Forall_nil
             | apply List.Forall_cons; [|apply List.Forall_nil];
               unfold reported_markers; cbn [map In]; auto 10].
Qed.

Lemma scan_class_loop_reasons (z : archive) (mc mb : Z) (names : list string) :
  forall scanned hits,
  exists extra,
    scan_class_loop z mc mb names scanned hits = (hits ++ extra)%list
    /\ Forall (fun r => In r (map marker_reason reported_markers)) extra
    /\ (length extra <= Z.to_nat (mc - scanned))%nat
    /\ (length extra <= length (List.filter is_class names))%nat.
Proof.
  induction names as [|p rest IH]; intros scanned hits; simpl.
  - exists []. rewrite app_nil_r. repeat split; auto; simpl; lia.
  - unfold is_class at 1. destruct (Str.endswith p ".class"); simpl; [|apply IH].
    destruct (Z.gtb_spec (scanned + 1) mc) as [Hcap|Hcap].
    { exists []. rewrite app_nil_r. repeat split; auto; simpl; lia. }
    destruct (zread_upto z p mb) as [data|e].
    + destruct (IH (scanned + 1) (hits ++ marker_hits data)%list)
        as (extra & -> & Hall & Hcnt & Hlen).
      destruct (marker_hits_reported data) as [Hm Hone].
      exists (marker_hits data ++ extra)%list. rewrite app_assoc.
      repeat split.
      * apply Forall_app. auto.
      * rewrite length_app. lia.
      * rewrite length_app. lia.
    + destruct (IH (scanned + 1) hits) as (extra & -> & Hall & Hcnt & Hlen).
      exists extra. repeat split; auto; lia.
Qed.

(** X5.  The class marker scanner sets its flag exactly when it gives a
    reason; it gives at most one reason per class-file entry and at most
    [max_classes] in all; and every reason names one of four markers: the
    marker [net/minecraft/client/MinecraftClient] is never reported, since
    the marker before it is a prefix of it. *)
Theorem class_scan_reasons (z : archive) (mc mb : Z) :
  (fst (_scan_class_bytes_for_client_markers z mc mb) = true
   <-> snd (_scan_class_bytes_for_client_markers z mc mb) <> [])
  /\ Forall (fun r => In r (map marker_reason reported_markers))
       (snd (_scan_class_bytes_for_client_markers z mc mb))
  /\ (length (snd (_scan_class_bytes_for_client_markers z mc mb)) <= Z.to_nat mc)%nat
  /\ (length (snd (_scan_class_bytes_for_client_markers z mc mb))
      <= length (class_entries z))%nat.
Proof.
  unfold _scan_class_bytes_for_client_markers, class_entries.
  destruct (scan_class_loop_reasons z mc mb (namelist z) 0 [])
    as (extra & -> & Hall & Hcnt & Hlen).
  simpl. rewrite Z.sub_0_r in Hcnt. repeat split; auto.
  - intros E ->. simpl in E. discriminate E.
  - intros Hne. destruct extra; [contradiction|]. reflexivity.
Qed.

(** ** Handlers act once *)

Lemma decide_side_in_verdicts loader meta_side mr mh mrs ch crs :
  In (fst (_decide_side loader meta_side mr mh mrs ch crs)) verdicts.
Proof.
  unfold _decide_side, verdicts.
  repeat match goal with
         | |- context [if ?b then _ else _] => destruct b
         end; simpl; tauto.
Qed.

Lemma decide_side_reasons_nonempty loader meta_side mr mh mrs ch crs :
  mr <> [] -> snd (_decide_side loader meta_side mr mh mrs ch crs) <> [].
Proof.
  intros Hmr. unfold _decide_side.
  destruct mr as [|r mr]; [contradiction|].
  repeat match goal with
         | |- context [if ?b then _ else _] => destruct b
         end; simpl; discriminate.
Qed.

Lemma extract_fabric_one_reason fabric_json guess mr dbg :
  _extract_fabric_side_from_metadata fabric_json = Ok (guess, mr, dbg) -> mr <> [].
Proof.
  unfold _extract_fabric_side_from_metadata.
  destruct (Py.keys _) as [ks|e]; [|discriminate].
  cbv beta iota zeta delta [rbind].
  repeat match goal with
         | |- context [if ?b then _ else _] => destruct b
         end; intros [= <- <- <-]; discriminate.
Qed.

Lemma quilt_meta_one_reason env guess mr :
  quilt_meta env = (guess, mr) -> mr <> [].
Proof.
  unfold quilt_meta.
  repeat match goal with
         | |- context [if ?b then _ else _] => destruct b
         end; intros [= <- <-]; discriminate.
Qed.

Lemma or_unknown_truthy (v : pyval) : Py.truthy (Py.or v (PStr "unknown")) = true.
Proof. unfold Py.or. destruct (Py.truthy v) eqn:E; [exact E | reflexivity]. Qed.

Lemma get_ok_dict (v : pyval) k d a : Py.get v k d = Ok a -> exists kvs, v = PDict kvs.
Proof. destruct v; try discriminate. eauto. Qed.

Section ActsOnce.
Context `{PyLib}.

Lemma acts_once_ret P : acts_once P (ret tt).
Proof. left. exists (Ok tt). reflexivity. Qed.

Lemma acts_once_bind_lift P {A : Type} (x : result A) (k : A -> M unit) :
  (forall a, x = Ok a -> acts_once P (k a)) -> acts_once P (bind (lift x) k).
Proof.
  intros Hk. destruct x as [a|e].
  - destruct (Hk a eq_refl) as [[r Hr]|(key & info & HP & Hadd)].
    + left. exists r. intros mods. unfold bind, lift. apply Hr.
    + right. exists key, info. split; [exact HP|].
      intros mods. unfold bind, lift. apply Hadd.
  - left. exists (Raise e). reflexivity.
Qed.

Lemma acts_once_add P key info : P key info -> acts_once P (add_if_absent key info).
Proof. intros HP. right. exists key, info. auto. Qed.

Lemma acts_once_guarded P key {A : Type} (v : A) (f : A -> ModInfo) :
  P key (f v) ->
  acts_once P
    (bind (has_key key)
       (fun present =>
          if present then ret tt
          else bind (lift (Ok v)) (fun name => set_key key (f name)))).
Proof.
  intros HP. right. exists key, (f v). split; [exact HP|].
  intros mods. unfold add_if_absent, bind, has_key, lift.
  destruct (bool_decide (is_Some (mods !! key))); reflexivity.
Qed.

Lemma SpecialHandler_noop folder_path file (mods : registry) :
  SpecialHandler folder_path file mods = (Ok tt, mods).
Proof.
  destruct file as [z|]; unfold SpecialHandler, try_pass, bind, lift; simpl.
  - destruct (special_verdict z) as [[sd rs]|e]; reflexivity.
  - reflexivity.
Qed.

Ltac record_shape :=
  split; [first [reflexivity | exact (make_mod_key_or_unknown _ _ _)]|];
  repeat split;
  [ assumption
  | eexists; split; [reflexivity|];
    first [ simpl; tauto
          | match goal with
            | E : _decide_side ?l ?ms ?mr ?mh ?mrs ?ch ?crs = (?sd, _) |- In ?sd _ =>
                change sd with (fst (sd, @nil string));
                let X := fresh in
                pose proof (decide_side_in_verdicts l ms mr mh mrs ch crs) as X;
                rewrite E in X; exact X
            end ]
  | eexists; split; [reflexivity | simpl; tauto]
  | eexists; split; [reflexivity|];
    first [ discriminate
          | match goal with
            | E : _decide_side ?l ?ms ?mr ?mh ?mrs ?ch ?crs = (_, ?rs) |- ?rs <> [] =>
                let X := fresh in
                assert (X : mr <> [])
                  by first [ discriminate
                           | eapply extract_fabric_one_reason; eassumption
                           | eapply quilt_meta_one_reason; eassumption ];
                apply (decide_side_reasons_nonempty l ms mr mh mrs ch crs) in X;
                rewrite E in X; exact X
            end ]
  | first [left; reflexivity | right; apply or_unknown_truthy] ].

Ltac acts_step :=
  first
    [ apply acts_once_ret
    | apply acts_once_add; record_shape
    | apply acts_once_bind_lift;
      let a := fresh "a" in
      let E := fresh "E" in
      intros a E; cbv beta;
      try (simpl in E; injection E as <-)
    | match goal with
      | E : Py.get ?v _ _ = Ok _ |- acts_once _ (bind (has_key _) _) =>
          let kvs := fresh "kvs" in
          destruct (get_ok_dict _ _ _ _ E) as [kvs ->];
          cbn [Py.get]; apply acts_once_guarded; record_shape
      end
    | match goal with
      | |- acts_once _ (match ?x with _ => _ end) => destruct x eqn:?
      end ].

Lemma FabricModHandler_acts folder_path file :
  acts_once (keyed_record folder_path) (FabricModHandler folder_path file).
Proof. unfold FabricModHandler, keyed_record. repeat acts_step. Qed.

Lemma UniversalHandler_acts folder_path file :
  acts_once (keyed_record folder_path) (UniversalHandler folder_path file).
Proof. unfold UniversalHandler, keyed_record. repeat acts_step. Qed.

Lemma RiftModHandler_acts folder_path file :
  acts_once (keyed_record folder_path) (RiftModHandler folder_path file).
Proof. unfold RiftModHandler, keyed_record. repeat acts_step. Qed.

Lemma QuiltModHandler_acts folder_path file :
  acts_once (keyed_record folder_path) (QuiltModHandler folder_path file).
Proof. unfold QuiltModHandler, keyed_record. repeat acts_step. Qed.

Lemma LForgeModHandler_acts folder_path file :
  acts_once (keyed_record folder_path) (LForgeModHandler folder_path file).
Proof. unfold LForgeModHandler, keyed_record. repeat acts_step. Qed.

Lemma MForgeModHandler_acts folder_path file :
  acts_once (keyed_record folder_path) (MForgeModHandler folder_path file).
Proof. unfold MForgeModHandler, keyed_record. repeat acts_step. Qed.

Lemma NeoForgeModHandler_acts folder_path file :
  acts_once (keyed_record folder_path) (NeoForgeModHandler folder_path file).
Proof. unfold NeoForgeModHandler, keyed_record. repeat acts_step. Qed.

Lemma JarFileHandler_acts folder_path file :
  acts_once (keyed_record folder_path) (JarFileHandler folder_path file).
Proof.
  unfold JarFileHandler. apply acts_once_bind_lift. intros z _.
  repeat match goal with
         | |- acts_once _ (if ?b then _ else _) => destruct b
         end;
    auto using FabricModHandler_acts, RiftModHandler_acts, QuiltModHandler_acts,
      LForgeModHandler_acts, MForgeModHandler_acts, NeoForgeModHandler_acts.
  left. exists (Ok tt). apply SpecialHandler_noop.
Qed.

Lemma handle_file_acts full_path content :
  acts_once (keyed_record full_path) (handle_file full_path content).
Proof.
  unfold handle_file.
  repeat match goal with
         | |- acts_once _ (if ?b then _ else _) => destruct b
         end;
    auto using UniversalHandler_acts, JarFileHandler_acts, acts_once_ret.
Qed.

End ActsOnce.

(** ** Consequences for a single file and for a walk *)

Section WalkFacts.
Context `{PyLib}.

Lemma grows_dom (mods mods' : registry) : grows mods mods' -> dom mods ⊆ dom mods'.
Proof.
  intros [Hkeep _] k Hk. apply elem_of_dom in Hk. destruct Hk as [r Hr].
  apply elem_of_dom. rewrite (Hkeep k r Hr). eauto.
Qed.

Lemma acts_once_replayable P (m : M unit) : acts_once P m -> replayable m.
Proof.
  intros [[r Hr]|(key & info & _ & Hadd)] mods mods2 Hdom.
  - rewrite !Hr. reflexivity.
  - rewrite !Hadd in *. rewrite add_if_absent_ok.
    assert (Hin : key ∈ dom mods2).
    { apply Hdom. apply elem_of_dom.
      destruct (mods !! key) as [r|] eqn:E.
      - rewrite (add_if_absent_present _ _ _ _ E). simpl. rewrite E. eauto.
      - rewrite (add_if_absent_absent _ _ _ E). simpl. rewrite lookup_insert_eq. eauto. }
    apply elem_of_dom in Hin. destruct Hin as [r Hr].
    apply (add_if_absent_present _ _ _ _ Hr).
Qed.

Lemma acts_once_adds_at_most P (m : M unit) : acts_once P m -> adds_at_most 1 m.
Proof.
  intros [[r Hr]|(key & info & _ & Hadd)] mods.
  - rewrite Hr. simpl. lia.
  - rewrite Hadd. destruct (mods !! key) as [r|] eqn:E.
    + rewrite (add_if_absent_present _ _ _ _ E). simpl. lia.
    + rewrite (add_if_absent_absent _ _ _ E). simpl.
      rewrite (map_size_insert_None _ _ _ E). lia.
Qed.

Lemma acts_once_adds_only P (m : M unit) :
  acts_once P m -> adds_only (fun r => exists key, P key r) m.
Proof.
  intros [[r Hr]|(key & info & HP & Hadd)] mods k r' Hnone Hsome.
  - rewrite Hr in Hsome. simpl in Hsome. congruence.
  - rewrite Hadd in Hsome.
    rewrite (add_if_absent_new _ _ _ _ _ Hnone Hsome). eauto.
Qed.

Lemma replayable_bind {A B : Type} (m : M A) (k : A -> M B) :
  replayable m -> (forall a, growing (k a)) -> (forall a, replayable (k a)) ->
  replayable (bind m k).
Proof.
  intros Hm Hgk Hk mods mods2. unfold bind.
  specialize (Hm mods mods2).
  destruct (m mods) as [[a|e] s1] eqn:Em; simpl in *.
  - intros Hdom.
    rewrite Hm; [|etransitivity; [apply grows_dom, (Hgk a s1) | exact Hdom]].
    apply (Hk a s1 mods2 Hdom).
  - intros Hdom. rewrite (Hm Hdom). reflexivity.
Qed.

Lemma adds_only_bind (P : ModInfo -> Prop) {A B : Type} (m : M A) (k : A -> M B) :
  adds_only P m -> (forall a, growing (k a)) -> (forall a, adds_only P (k a)) ->
  adds_only P (bind m k).
Proof.
  intros Hm Hgk Hk mods key r Hnone. unfold bind.
  specialize (Hm mods key).
  destruct (m mods) as [[a|e] s1] eqn:Em; simpl in *.
  - intros Hsome. destruct (s1 !! key) as [r1|] eqn:E1.
    + destruct (Hgk a s1) as [Hkeep _].
      rewrite (Hkeep key r1 E1) in Hsome. injection Hsome as <-.
      now apply Hm.
    + now apply (Hk a s1 key r E1).
  - intros Hsome. now apply Hm.
Qed.

Lemma PathHandler_closed (Q : M unit -> Prop) :
  Q (ret tt) ->
  Q (lift (Raise OSError)) ->
  (forall m (k : unit -> M unit), Q m -> (forall a, Q (k a)) -> Q (bind m k)) ->
  (forall full_path content, Q (handle_file full_path content)) ->
  forall node folder_path, Q (PathHandler folder_path node).
Proof.
  intros Hret Hraise Hbind Hfile.
  induction node as [content|items IHitems] using fsnode_nested_ind;
    intros folder_path; simpl; [exact Hraise|].
  induction IHitems as [|[item child] rest Hchild _ IHrest]; simpl; [exact Hret|].
  apply Hbind; [|intros _; exact IHrest].
  destruct child as [sub|content]; [apply Hchild | apply Hfile].
Qed.

Lemma PathHandler_replayable node folder_path :
  growing (PathHandler folder_path node) /\ replayable (PathHandler folder_path node).
Proof.
  revert node folder_path.
  apply (PathHandler_closed (fun m => growing m /\ replayable m)).
  - split; [apply growing_ret | intros mods mods2 _; reflexivity].
  - split; [apply growing_lift | intros mods mods2 _; reflexivity].
  - intros m k [Hgm Hrm] Hk. split.
    + apply growing_bind; [exact Hgm | intros a; apply Hk].
    + apply replayable_bind; [exact Hrm | intros a; apply Hk | intros a; apply Hk].
  - intros full_path content. split.
    + apply handle_file_growing.
    + eapply acts_once_replayable, handle_file_acts.
Qed.

(** X6.  Scanning a folder again, on the registry that the first scan left,
    ends as the first scan ended and changes nothing. *)
Theorem rescan_is_idempotent (folder_path : string) (node : fsnode) (mods : registry) :
  PathHandler folder_path node (snd (PathHandler folder_path node mods))
  = PathHandler folder_path node mods.
Proof.
  destruct (PathHandler_replayable node folder_path) as [_ Hreplay].
  rewrite (Hreplay mods (snd (PathHandler folder_path node mods))) by reflexivity.
  now destruct (PathHandler folder_path node mods).
Qed.

Lemma adds_at_most_bind {A B : Type} (n1 n2 : nat) (m : M A) (k : A -> M B) :
  adds_at_most n1 m -> (forall a, adds_at_most n2 (k a)) ->
  adds_at_most (n1 + n2) (bind m k).
Proof.
  intros Hm Hk mods. unfold bind. specialize (Hm mods).
  destruct (m mods) as [[a|e] s1]; simpl in *.
  - specialize (Hk a s1). lia.
  - lia.
Qed.

Lemma PathHandler_adds_at_most node :
  forall folder_path, adds_at_most (count_files node) (PathHandler folder_path node).
Proof.
  induction node as [content|items IHitems] using fsnode_nested_ind;
    intros folder_path; simpl.
  - intros mods. simpl. lia.
  - induction IHitems as [|[item child] rest Hchild _ IHrest]; simpl.
    + intros mods. simpl. lia.
    + apply adds_at_most_bind; [|intros _; exact IHrest].
      destruct child as [sub|content]; simpl.
      * apply Hchild.
      * eapply acts_once_adds_at_most, handle_file_acts.
Qed.

(** X7.  A walk adds at most one record for each file of the folder tree,
    and the handler of a single file adds at most one. *)
Theorem one_record_per_file :
  (forall folder_path node (mods : registry),
      (size (snd (PathHandler folder_path node mods)) <= size mods + count_files node)%nat)
  /\ (forall full_path content (mods : registry),
      (size (snd (handle_file full_path content mods)) <= size mods + 1)%nat).
Proof.
  split.
  - intros folder_path node. apply PathHandler_adds_at_most.
  - intros full_path content.
    apply (acts_once_adds_at_most _ _ (handle_file_acts full_path content)).
Qed.

Lemma PathHandler_adds_only node folder_path :
  growing (PathHandler folder_path node)
  /\ adds_only (fun r => exists path, scanned_record path r)
       (PathHandler folder_path node).
Proof.
  revert node folder_path.
  apply (PathHandler_closed
           (fun m => growing m
                     /\ adds_only (fun r => exists path, scanned_record path r) m)).
  - split; [apply growing_ret | apply adds_only_ret].
  - split; [apply growing_lift|].
    intros mods k r Hnone Hsome. simpl in Hsome. congruence.
  - intros m k [Hgm Ham] Hk. split.
    + apply growing_bind; [exact Hgm | intros a; apply Hk].
    + apply adds_only_bind; [exact Ham | intros a; apply Hk | intros a; apply Hk].
  - intros full_path content. split; [apply handle_file_growing|].
    intros mods k r Hnone Hsome.
    destruct (acts_once_adds_only _ _ (handle_file_acts full_path content)
                mods k r Hnone Hsome) as (key & _ & Hshape).
    eauto.
Qed.

(** X8.  Every record that a walk adds has a non-empty id, one of the five
    sides, one of the seven loader names, at least one reason, the one path
    of its archive as source files, and a non-empty version unless its
    loader is forge. *)
Theorem walk_records_shape (folder_path : string) (node : fsnode) (mods : registry)
    (k : string) (r : ModInfo) :
  mods !! k = None ->
  snd (PathHandler folder_path node mods) !! k = Some r ->
  exists path, scanned_record path r.
Proof.
  destruct (PathHandler_adds_only node folder_path) as [_ Hadds].
  apply Hadds.
Qed.

Lemma no_candidate_walk node :
  forall folder_path items (mods : registry),
    node = FsDir items ->
    has_candidate folder_path node = false ->
    PathHandler folder_path node mods = (Ok tt, mods).
Proof.
  induction node as [content|items0 IHitems] using fsnode_nested_ind;
    intros folder_path items mods Hnode; [discriminate Hnode|].
  clear Hnode items. simpl.
  induction IHitems as [|[item child] rest Hchild _ IHrest]; simpl; [reflexivity|].
  intros Hnone. apply orb_false_elim in Hnone. destruct Hnone as [Hhere Hrest].
  unfold bind. destruct child as [sub|content]; simpl in *.
  - rewrite (Hchild _ sub mods eq_refl Hhere). now apply IHrest.
  - unfold handle_file. unfold is_candidate in Hhere.
    apply orb_false_elim in Hhere. destruct Hhere as [Hhere Hjar].
    apply orb_false_elim in Hhere. destruct Hhere as [Hlite Hzip].
    rewrite Hlite, Hzip, Hjar. simpl. now apply IHrest.
Qed.

(** X9.  The walk of a folder tree in which no file path ends in
    [.litemod], [.zip] or [.jar] (the test is case-sensitive) leaves the
    registry as it was, whatever the files hold: no handler is called. *)
Theorem walk_ignores_other_files (folder_path : string)
    (items : list (string * fsnode)) (mods : registry) :
  has_candidate folder_path (FsDir items) = false ->
  snd (PathHandler folder_path (FsDir items) mods) = mods.
Proof.
  intros Hnone.
  now rewrite (no_candidate_walk (FsDir items) folder_path items mods eq_refl Hnone).
Qed.

End WalkFacts.

Lemma walk_records_shape_witness :
  exists path, scanned_record path minimap_record.
Proof.
  apply (@walk_records_shape Sample.lib "mods" Sample.mods_folder_valid_only ∅
           "minimap_fabric_1.0"); reflexivity.
Defined.

Lemma walk_ignores_other_files_witness :
  snd (@PathHandler Sample.lib "mods" other_files Sample.one_mod) = Sample.one_mod.
Proof.
  apply (@walk_ignores_other_files Sample.lib). reflexivity.
Defined.

(** ** What a load restores *)

Section Restore.
Context `{PyLib}.

Lemma load_mod_dict (d : list (string * pyval)) (mods : registry) :
  load_mod (PDict d) mods
  = add_if_absent (composite_key (record_of_dict d)) (record_of_dict d) mods.
Proof.
  unfold load_mod, bind, lift. cbn [Py.get].
  unfold composite_key, record_of_dict. cbn [modid loader version].
  now rewrite make_mod_key_or_unknown.
Qed.

Lemma load_mods_dicts (ds : list (list (string * pyval))) :
  forall mods : registry,
    fst (load_mods (map PDict ds) mods) = Ok tt
    /\ forall k,
        snd (load_mods (map PDict ds) mods) !! k
        = match mods !! k with
          | Some r => Some r
          | None => first_under k ds
          end.
Proof.
  induction ds as [|d ds IH]; intros mods; simpl.
  - split; [reflexivity|]. intros k. now destruct (mods !! k).
  - unfold bind. rewrite load_mod_dict.
    set (r := record_of_dict d). set (key := composite_key r).
    destruct (mods !! key) as [r0|] eqn:E.
    + rewrite (add_if_absent_present _ _ _ _ E).
      destruct (IH mods) as [Hok Hlook]. split; [exact Hok|].
      intros k. rewrite Hlook. unfold first_under. simpl. fold r. fold key.
      destruct (mods !! k) as [rk|] eqn:Ek; [reflexivity|].
      destruct (String.eqb_spec key k) as [->|Hne]; [congruence | reflexivity].
    + rewrite (add_if_absent_absent _ _ _ E).
      destruct (IH (<[key := r]> mods)) as [Hok Hlook]. split; [exact Hok|].
      intros k. rewrite Hlook. unfold first_under. simpl. fold r. fold key.
      destruct (String.eqb_spec key k) as [->|Hne].
      * rewrite lookup_insert_eq, E. reflexivity.
      * rewrite lookup_insert_ne by exact Hne. reflexivity.
Qed.

Lemma load_mods_stops (ds : list (list (string * pyval))) (bad : pyval) (rest : list pyval) :
  is_dict bad = false ->
  forall mods : registry,
    load_mods (map PDict ds ++ bad :: rest) mods
    = (Raise AttributeError, snd (load_mods (map PDict ds) mods)).
Proof.
  intros Hbad. induction ds as [|d ds IH]; intros mods; simpl.
  - unfold bind, load_mod, bind, lift.
    destruct bad; try discriminate Hbad; reflexivity.
  - unfold bind. rewrite load_mod_dict.
    destruct (add_if_absent _ _ mods) as [[[]|e] mods'] eqn:E.
    + apply IH.
    + pose proof (add_if_absent_ok (composite_key (record_of_dict d))
                    (record_of_dict d) mods) as Hok.
      rewrite E in Hok. discriminate Hok.
Qed.

Lemma restore_run (metadata : pyval) (l : list pyval) (mods : registry) :
  (run l' <- lift (py_iter (PList l)) ;;
   run _ <- load_mods l' ;;
   ret metadata) mods
  = match load_mods l mods with
    | (Ok _, mods') => (Ok metadata, mods')
    | (Raise e, mods') => (Raise e, mods')
    end.
Proof. unfold bind, lift, py_iter, ret. now destruct (load_mods l mods) as [[[]|e] mods']. Qed.

(** X10.  A load that gets as far as selecting a snapshot file gives a
    result and a registry that do not depend on what the registry held. *)
Theorem load_forgets_registry (dir : list (string * option string)) (index : Z)
    (f : string) (mods1 mods2 : registry) :
  selected_snapshot (Some dir) index = Some f ->
  LoadFromJson (Some dir) index mods1 = LoadFromJson (Some dir) index mods2.
Proof.
  intros Hsel. rewrite !LoadFromJson_selected, Hsel. reflexivity.
Qed.

(** X11.  When every element of the snapshot's list is an object, the load
    returns the metadata, and the registry holds, under each key, the record
    of the first object that belongs under it, and nothing else. *)
Theorem load_restores_first_seen (dir : list (string * option string)) (index : Z)
    (f : string) (data metadata : pyval) (ds : list (list (string * pyval)))
    (mods : registry) :
  selected_snapshot (Some dir) index = Some f ->
  load_json_file (file_content dir f) = Ok data ->
  snapshot_shape data = Some (metadata, PList (map PDict ds)) ->
  fst (LoadFromJson (Some dir) index mods) = Ok metadata
  /\ forall k, snd (LoadFromJson (Some dir) index mods) !! k = first_under k ds.
Proof.
  intros Hsel Hload Hshape.
  rewrite LoadFromJson_selected, Hsel, Hload, Hshape, restore_run.
  destruct (load_mods_dicts ds ∅) as [Hok Hlook].
  destruct (load_mods (map PDict ds) ∅) as [[[]|e] mods'] eqn:E;
    simpl in Hok; [|discriminate Hok].
  split; [reflexivity|].
  intros k. specialize (Hlook k). simpl in Hlook.
  simpl. rewrite Hlook, lookup_empty. reflexivity.
Qed.

(** X12.  When an element of the snapshot's list is not an object, the load
    reports no data, and the registry is left with the records of the
    objects before that element: the load is neither complete nor undone. *)
Theorem load_stops_at_bad_element (dir : list (string * option string)) (index : Z)
    (f : string) (data metadata bad : pyval) (ds : list (list (string * pyval)))
    (rest : list pyval) (mods : registry) :
  selected_snapshot (Some dir) index = Some f ->
  load_json_file (file_content dir f) = Ok data ->
  snapshot_shape data = Some (metadata, PList (map PDict ds ++ bad :: rest)) ->
  is_dict bad = false ->
  fst (LoadFromJson (Some dir) index mods) = Ok PNone
  /\ forall k, snd (LoadFromJson (Some dir) index mods) !! k = first_under k ds.
Proof.
  intros Hsel Hload Hshape Hbad.
  rewrite LoadFromJson_selected, Hsel, Hload, Hshape, restore_run.
  rewrite (load_mods_stops ds bad rest Hbad ∅).
  split; [reflexivity|].
  intros k. destruct (load_mods_dicts ds ∅) as [_ Hlook].
  cbn [snd]. rewrite Hlook, lookup_empty. reflexivity.
Qed.

End Restore.

Lemma load_forgets_registry_witness :
  @LoadFromJson Snapshots.lib Snapshots.old_dir 0 Sample.one_mod
  = @LoadFromJson Snapshots.lib Snapshots.old_dir 0 ∅.
Proof.
  apply (@load_forgets_registry Snapshots.lib _ 0 "ModelInfo_20230101_000000.json").
  reflexivity.
Defined.

Lemma load_restores_first_seen_witness :
  fst (@LoadFromJson Snapshots.lib Snapshots.old_dir 0 Sample.one_mod)
  = Ok (PDict [("current_path", PStr "")])
  /\ forall k,
      snd (@LoadFromJson Snapshots.lib Snapshots.old_dir 0 Sample.one_mod) !! k
      = @first_under Snapshots.lib k Snapshots.broken_objects.
Proof.
  apply (@load_restores_first_seen Snapshots.lib _ 0 "ModelInfo_20230101_000000.json"
           Snapshots.legacy_doc);
    reflexivity.
Defined.

Lemma load_stops_at_bad_element_witness :
  fst (@LoadFromJson Snapshots.lib Snapshots.old_dir 1 Sample.one_mod) = Ok PNone
  /\ forall k,
      snd (@LoadFromJson Snapshots.lib Snapshots.old_dir 1 Sample.one_mod) !! k
      = @first_under Snapshots.lib k Snapshots.broken_objects.
Proof.
  apply (@load_stops_at_bad_element Snapshots.lib _ 1 "ModelInfo_20220101_000000.json"
           Snapshots.broken_doc (PDict [("current_path", PStr "")]) (PStr "oops")
           Snapshots.broken_objects [PDict [("modid", PStr "late")]]);
    reflexivity.
Defined.

(** ** Saving and loading *)

Lemma assoc_absent (kvs : list (string * pyval)) (k : string) :
  ~ In k (map fst kvs) -> Py.assoc kvs k = None.
Proof.
  induction kvs as [|[k' v] kvs IH]; simpl; intros Hk; [reflexivity|].
  destruct (String.eqb_spec k' k) as [->|Hne]; [tauto|].
  apply IH. tauto.
Qed.

Lemma assoc_clean (kvs : list (string * pyval)) (k : string) :
  List.NoDup (map fst kvs) ->
  Py.assoc (List.filter (fun kv : string * pyval => negb (is_none (snd kv))) kvs) k
  = match Py.assoc kvs k with
    | Some v => if is_none v then None else Some v
    | None => None
    end.
Proof.
  induction kvs as [|[k' v] kvs IH]; simpl; intros Hnd; [reflexivity|].
  inversion Hnd as [|? ? Hnotin Hnd']; subst.
  destruct (is_none v) eqn:Ev; simpl.
  - rewrite (IH Hnd').
    destruct (String.eqb_spec k' k) as [->|Hne]; [|reflexivity].
    now rewrite (assoc_absent kvs k Hnotin), Ev.
  - destruct (String.eqb_spec k' k) as [->|Hne]; [now rewrite Ev | now apply IH].
Qed.

Lemma fields_NoDup (r : ModInfo) : List.NoDup (map fst (fields r)).
Proof.
  unfold fields. cbn [map fst].
  repeat (constructor; [cbn [In]; intuition discriminate|]). constructor.
Qed.

Lemma dict_get_clean (r : ModInfo) (k : string) (d : pyval) :
  Py.dict_get (List.filter (fun kv : string * pyval => negb (is_none (snd kv))) (fields r)) k d
  = match Py.assoc (fields r) k with
    | Some v => if is_none v then d else v
    | None => d
    end.
Proof.
  unfold Py.dict_get. rewrite (assoc_clean _ _ (fields_NoDup r)).
  destruct (Py.assoc (fields r) k) as [v|]; [|reflexivity].
  now destruct (is_none v).
Qed.

Lemma optional_field (v : pyval) : (if is_none v then PNone else v) = v.
Proof. now destruct v. Qed.

Lemma required_field (v d : pyval) : v <> PNone -> (if is_none v then d else v) = v.
Proof. destruct v; simpl; congruence. Qed.

Lemma record_of_clean_fields (r : ModInfo) :
  modid r <> PNone -> name r <> PNone -> version r <> PNone ->
  record_of_dict (List.filter (fun kv : string * pyval => negb (is_none (snd kv))) (fields r))
  = r.
Proof.
  intros Hm Hn Hv. unfold record_of_dict. rewrite !dict_get_clean.
  change (Py.assoc (fields r) "modid") with (Some (modid r)).
  change (Py.assoc (fields r) "name") with (Some (name r)).
  change (Py.assoc (fields r) "version") with (Some (version r)).
  change (Py.assoc (fields r) "side") with (Some (side r)).
  change (Py.assoc (fields r) "loader") with (Some (loader r)).
  change (Py.assoc (fields r) "reasons") with (Some (reasons r)).
  change (Py.assoc (fields r) "debug") with (Some (debug r)).
  change (Py.assoc (fields r) "source_files") with (Some (source_files r)).
  cbv beta iota.
  rewrite !optional_field, !required_field by assumption.
  now destruct r.
Qed.

Lemma file_content_written (f text : string) (dir : list (string * option string)) :
  file_content (write_file f text dir) f = Some text.
Proof.
  induction dir as [|[n c] dir IH]; simpl.
  - now rewrite String.eqb_refl.
  - destruct (String.eqb_spec n f) as [->|Hne]; simpl.
    + now rewrite String.eqb_refl.
    + destruct (String.eqb_spec n f); [contradiction | exact IH].
Qed.

Section RoundTrip.
Context `{PyLib}.
Variable json_dumps : pyval -> string.

Lemma first_under_items (reg : registry) (items : list (string * ModInfo)) (k : string) :
  items ≡ₚ map_to_list reg ->
  (forall k r, reg !! k = Some r ->
     k = composite_key r /\ modid r <> PNone /\ name r <> PNone /\ version r <> PNone) ->
  first_under k
    (map (fun kv : string * ModInfo =>
            List.filter (fun f : string * pyval => negb (is_none (snd f))) (fields (snd kv)))
         items)
  = reg !! k.
Proof.
  intros Hperm Hreg. unfold first_under.
  assert (Hitems : forall k r, In (k, r) items <-> reg !! k = Some r).
  { intros k' r'. rewrite <- list_elem_of_In, Hperm. apply elem_of_map_to_list. }
  assert (Hmap : map record_of_dict
                   (map (fun kv : string * ModInfo =>
                           List.filter (fun f : string * pyval => negb (is_none (snd f)))
                             (fields (snd kv))) items)
                 = map snd items).
  { rewrite map_map. apply map_ext_in. intros [k' r'] Hin. simpl.
    apply Hitems in Hin. destruct (Hreg k' r' Hin) as (_ & Hm & Hn & Hv).
    now apply record_of_clean_fields. }
  rewrite Hmap.
  assert (Hsnd : forall r, In r (map snd items) -> reg !! composite_key r = Some r).
  { intros r Hin. apply in_map_iff in Hin. destruct Hin as ([k' r'] & <- & Hin).
    simpl. apply Hitems in Hin. destruct (Hreg k' r' Hin) as (<- & _). exact Hin. }
  destruct (find _ (map snd items)) as [r|] eqn:Ef.
  - apply find_some in Ef. destruct Ef as [Hin Hk].
    apply String.eqb_eq in Hk. subst k. symmetry. now apply Hsnd.
  - destruct (reg !! k) as [r|] eqn:Er; [|reflexivity].
    destruct (Hreg k r Er) as (Hk & _).
    assert (Hin : In r (map snd items)).
    { apply in_map_iff. exists (k, r). split; [reflexivity | now apply Hitems]. }
    pose proof (find_none _ _ Ef r Hin) as Hno. simpl in Hno.
    rewrite <- Hk, String.eqb_refl in Hno. discriminate Hno.
Qed.

(** X13.  Saving a registry and loading the saved snapshot gives the
    registry back, with the saved path and time stamp as metadata, whatever
    the registry held at the load and in whatever order the records were
    written, provided that every record sits under its composite key and has
    an id, a name and a version that are not [None], and that the JSON
    library reads back the document it wrote. *)
Theorem save_then_load (reg : registry) (items : list (string * ModInfo))
    (current_path timestamp : string) (rd : record_dir) (index : Z) (mods0 : registry) :
  items ≡ₚ map_to_list reg ->
  (forall k r, reg !! k = Some r ->
     k = composite_key r /\ modid r <> PNone /\ name r <> PNone /\ version r <> PNone) ->
  selected_snapshot (SaveToJson json_dumps items current_path timestamp rd) index
  = Some (snapshot_name timestamp) ->
  load_json_file (Some (json_dumps (snapshot_document items current_path timestamp)))
  = Ok (snapshot_document items current_path timestamp) ->
  LoadFromJson (SaveToJson json_dumps items current_path timestamp rd) index mods0
  = (Ok (PDict [("current_path", PStr current_path); ("timestamp", PStr timestamp)]), reg).
Proof.
  intros Hperm Hreg Hsel Hread. unfold SaveToJson in *.
  rewrite LoadFromJson_selected, Hsel, file_content_written, Hread.
  unfold snapshot_document.
  change (snapshot_shape (PDict ?d))
    with (Some (Py.dict_get d "metadata" (PDict []), Py.dict_get d "mods" (PList []))).
  cbn [Py.dict_get Py.assoc String.eqb Ascii.eqb Bool.eqb].
  rewrite restore_run.
  unfold asdict_clean. rewrite <- (map_map _ PDict).
  match goal with
  | |- context [load_mods (map PDict ?ds) ∅] =>
      destruct (load_mods_dicts ds ∅) as [Hok Hlook];
      destruct (load_mods (map PDict ds) ∅) as [[[]|e] mods'] eqn:E
  end; simpl in Hok; [|discriminate Hok].
  f_equal. apply map_eq. intros k.
  specialize (Hlook k). simpl in Hlook. rewrite Hlook, lookup_empty.
  now apply first_under_items.
Qed.

End RoundTrip.

Lemma save_then_load_witness :
  @LoadFromJson Snapshots.lib
    (SaveToJson Sample.to_json Snapshots.two_items "/mods" "20240102_030405"
       Snapshots.old_dir) 0 Sample.one_mod
  = (Ok (PDict [("current_path", PStr "/mods"); ("timestamp", PStr "20240102_030405")]),
     Snapshots.two_mods).
Proof.
  apply (@save_then_load Snapshots.lib Sample.to_json Snapshots.two_mods).
  - apply NoDup_Permutation.
    + apply NoDup_cons. split; [|apply NoDup_singleton].
      intros Hin. apply list_elem_of_singleton in Hin. discriminate Hin.
    + apply NoDup_map_to_list.
    + intros [k r]. rewrite elem_of_map_to_list.
      unfold Snapshots.two_items, Snapshots.two_mods.
      rewrite !elem_of_cons, elem_of_nil.
      rewrite lookup_insert_Some, lookup_singleton_Some.
      split.
      * intros [E|[E|[]]]; injection E as -> ->; [right|left]; split; auto; discriminate.
      * intros [[<- <-]|[_ [<- <-]]]; auto.
  - intros k r. unfold Snapshots.two_mods.
    rewrite lookup_insert_Some, lookup_singleton_Some.
    intros [[<- <-]|[_ [<- <-]]]; repeat split; discriminate.
  - reflexivity.
  - reflexivity.
Defined.

(** ** Which snapshot is selected *)

Lemma insert_sorted_In (a x : string) (l : list string) :
  In x (Str.insert_sorted a l) <-> x = a \/ In x l.
Proof.
  induction l as [|y l IH]; simpl; [intuition|].
  destruct (String.leb a y); simpl; [intuition|].
  rewrite IH. intuition.
Qed.

Lemma sorted_In (x : string) (l : list string) : In x (Str.sorted l) <-> In x l.
Proof.
  induction l as [|a l IH]; simpl; [reflexivity|].
  rewrite insert_sorted_In, IH. intuition.
Qed.

Lemma insert_sorted_ascending (a : string) (l : list string) :
  StronglySorted String.le l -> StronglySorted String.le (Str.insert_sorted a l).
Proof.
  induction 1 as [|y l Hl IH Hy]; simpl.
  - repeat constructor.
  - destruct (String.leb a y) eqn:E.
    + constructor; [constructor; assumption|].
      assert (Hay : String.le a y) by (unfold String.le; rewrite E; exact I).
      constructor; [exact Hay|].
      eapply Forall_impl; [exact Hy|]. intros z Hz. simpl in Hz.
      transitivity y; assumption.
    + constructor; [exact IH|].
      assert (Hya : String.le y a).
      { destruct (total String.le a y) as [Hle|Hle]; [|exact Hle].
        unfold String.le in Hle. rewrite E in Hle. destruct Hle. }
      apply List.Forall_forall. intros z Hz. apply insert_sorted_In in Hz.
      destruct Hz as [->|Hz]; [exact Hya|].
      rewrite List.Forall_forall in Hy. now apply Hy.
Qed.

Lemma sorted_ascending (l : list string) : StronglySorted String.le (Str.sorted l).
Proof.
  induction l as [|a l IH]; simpl; [constructor|].
  now apply insert_sorted_ascending.
Qed.

Lemma ascending_last (l : list string) (f : string) :
  StronglySorted String.le l -> head (rev l) = Some f ->
  In f l /\ forall g, In g l -> String.le g f.
Proof.
  induction 1 as [|a l Hl IH Ha]; simpl; [discriminate|].
  destruct (rev l) as [|b bs] eqn:Er; simpl.
  - intros [= <-]. assert (l = []) as ->.
    { destruct l; [reflexivity|]. simpl in Er. now destruct (rev l). }
    split; [now left|]. intros g [<-|[]]. reflexivity.
  - intros [= <-]. destruct (IH eq_refl) as [Hin Hmax].
    split; [now right|].
    intros g [<-|Hg]; [|now apply Hmax].
    rewrite List.Forall_forall in Ha. now apply Ha.
Qed.

Lemma list_index_head {A : Type} (l : list A) :
  list_index l 0
  = match head l with
    | Some x => Ok x
    | None => Raise IndexError
    end.
Proof. now destruct l. Qed.

(** X14.  Index 0 selects the snapshot file whose name is greatest among the
    names of the record directory that start with [ModelInfo_] and end in
    [.json]; other files are never selected, and there is no selection
    exactly when there is no such file. *)
Theorem newest_snapshot_first (dir : list (string * option string)) :
  (forall f,
      selected_snapshot (Some dir) 0 = Some f <->
      In f (map fst dir) /\ is_snapshot_name f = true
      /\ forall g, In g (map fst dir) -> is_snapshot_name g = true ->
                   String.leb g f = true)
  /\ (selected_snapshot (Some dir) 0 = None <->
      forall g, In g (map fst dir) -> is_snapshot_name g = false).
Proof.
  unfold selected_snapshot, snapshot_files.
  set (names := List.filter is_snapshot_name (map fst dir)).
  assert (Hnames : forall g, In g names <-> In g (map fst dir) /\ is_snapshot_name g = true)
    by (intros g; apply filter_In).
  assert (Hsel : (if 0 >=? Z.of_nat (length (rev (Str.sorted names))) then None
                  else match list_index (rev (Str.sorted names)) 0 with
                       | Ok f => Some f
                       | Raise _ => None
                       end)
                 = head (rev (Str.sorted names))).
  { rewrite list_index_head. destruct (rev (Str.sorted names)); reflexivity. }
  rewrite Hsel. clear Hsel.
  pose proof (sorted_ascending names) as Hasc.
  split.
  - intros f. split.
    + intros Hhead. destruct (ascending_last _ _ Hasc Hhead) as [Hin Hmax].
      apply sorted_In, Hnames in Hin. destruct Hin as [Hin Hsnap].
      repeat split; auto. intros g Hg Hgs.
      apply Is_true_true. apply Hmax. apply sorted_In, Hnames. auto.
    + intros (Hin & Hsnap & Hmax).
      assert (Hf : In f (Str.sorted names)) by (apply sorted_In, Hnames; auto).
      destruct (head (rev (Str.sorted names))) as [f'|] eqn:Hhead.
      * destruct (ascending_last _ _ Hasc Hhead) as [Hin' Hmax'].
        f_equal. apply (anti_symm String.le).
        -- apply sorted_In, Hnames in Hin'. destruct Hin' as [Hin' Hsnap'].
           apply Is_true_true. now apply Hmax.
        -- now apply Hmax'.
      * apply in_rev in Hf. destruct (rev (Str.sorted names)); [destruct Hf | discriminate].
  - split.
    + intros Hhead g Hg.
      destruct (is_snapshot_name g) eqn:Hs; [|reflexivity].
      assert (Hin : In g (rev (Str.sorted names)))
        by (apply in_rev; rewrite rev_involutive; apply sorted_In, Hnames; auto).
      destruct (rev (Str.sorted names)); [destruct Hin | discriminate].
    + intros Hnone.
      destruct (head (rev (Str.sorted names))) as [f|] eqn:Hhead; [|reflexivity].
      destruct (ascending_last _ _ Hasc Hhead) as [Hin _].
      apply sorted_In, Hnames in Hin. destruct Hin as [Hin Hsnap].
      rewrite (Hnone f Hin) in Hsnap. discriminate Hsnap.
Qed.

(** ** The export filter *)

Section ExportFilter.
Context `{PyLib}.

(** X15.  Of the records that a walk adds, [filter_server_and_unknown]
    keeps exactly those whose side is neither client-only nor both, each
    under the key it has in the registry. *)
Theorem export_keeps_non_client (folder_path : string) (node : fsnode) (mods : registry)
    (k : string) (r : ModInfo) :
  mods !! k = None ->
  snd (PathHandler folder_path node mods) !! k = Some r ->
  (filter_server_and_unknown (snd (PathHandler folder_path node mods)) !! k = Some r
   <-> side r <> PStr "client_only" /\ side r <> PStr "both").
Proof.
  intros Hnone Hsome.
  destruct (PathHandler_adds_only node folder_path) as [_ Hadds].
  destruct (Hadds mods k r Hnone Hsome) as (path & _ & (s & Hside & Hs) & _).
  unfold filter_server_and_unknown. rewrite map_lookup_filter_Some.
  unfold side_exported. simpl. rewrite Hside.
  unfold verdicts in Hs. simpl in Hs.
  destruct Hs as [<-|[<-|[<-|[<-|[<-|[]]]]]]; simpl;
    (split; [intros [_ E]; first [discriminate E | split; discriminate]
            | intros [E1 E2]; first [contradiction | split; [exact Hsome | reflexivity]]]).
Qed.

End ExportFilter.

Lemma export_keeps_non_client_witness :
  filter_server_and_unknown
    (snd (@PathHandler Sample.lib "mods" Sample.mods_folder_valid_only ∅))
    !! "minimap_fabric_1.0" = Some minimap_record
  <-> side minimap_record <> PStr "client_only" /\ side minimap_record <> PStr "both".
Proof.
  apply (@export_keeps_non_client Sample.lib "mods" Sample.mods_folder_valid_only ∅
           "minimap_fabric_1.0" minimap_record); reflexivity.
Defined.

(** ** The version of a forge mod *)

Section JarVersion.
Context `{PyLib}.

Lemma resolve_other_version (z : archive) (version : pyval) :
  version <> PStr "${file.jarVersion}" -> resolve_jar_version z version = Ok version.
Proof.
  intros Hv. unfold resolve_jar_version.
  destruct version as [| | |s| |]; try reflexivity.
  repeat (match goal with
          | |- context [match ?x with _ => _ end] => is_var x; destruct x
          end; try reflexivity).
  exfalso. apply Hv. reflexivity.
Qed.

Lemma startswith_own_prefix (p v : string) : Str.startswith (p +:+ v) p = true.
Proof.
  induction p as [|c p IH]; simpl; [now destruct v|].
  now rewrite Ascii.eqb_refl.
Qed.

Lemma manifest_version_first (before : list string) (line : string) (rest : list string)
    (ending : option exn) (value : string) (version : pyval) :
  Forall (fun l => Str.startswith (Str.strip (decode_utf8_ignore l))
                     "Implementation-Version:" = false) before ->
  Str.strip (decode_utf8_ignore line) = "Implementation-Version:" +:+ value ->
  manifest_version (before ++ line :: rest) ending version = Ok (PStr (Str.strip value)).
Proof.
  intros Hbefore Hline. induction Hbefore as [|l before Hl _ IH]; simpl.
  - rewrite Hline, startswith_own_prefix. reflexivity.
  - rewrite Hl. exact IH.
Qed.

Lemma manifest_version_none (lines : list string) (ending : option exn) (version : pyval) :
  Forall (fun l => Str.startswith (Str.strip (decode_utf8_ignore l))
                     "Implementation-Version:" = false) lines ->
  manifest_version lines ending version
  = match ending with
    | Some e => Raise e
    | None => Ok version
    end.
Proof.
  induction 1 as [|l lines Hl _ IH]; simpl; [reflexivity|].
  rewrite Hl. exact IH.
Qed.

(** X16.  A declared version other than the placeholder is kept without a
    look at the manifest.  The placeholder is kept when the archive has no
    manifest; a manifest that cannot be opened makes the resolution raise.
    The lines of an opened manifest are taken one by one, as far as the
    reader yields them: the placeholder is replaced by the stripped value of
    the first line that, once stripped, starts with
    [Implementation-Version:], whatever follows that line; when no line that
    the reader yields is such a line, the placeholder is kept if the lines
    ran out and the resolution raises if the reading failed.  An intact
    manifest yields all its lines; a damaged one yields the lines that end
    before the block in which the reading fails. *)
Theorem jar_version_resolution (z : archive) :
  let placeholder := PStr "${file.jarVersion}" in
  let tagged l :=
    Str.startswith (Str.strip (decode_utf8_ignore l)) "Implementation-Version:" in
  (forall version, version <> placeholder -> resolve_jar_version z version = Ok version)
  /\ (in_namelist "META-INF/MANIFEST.MF" z = false ->
      resolve_jar_version z placeholder = Ok placeholder)
  /\ (forall e, in_namelist "META-INF/MANIFEST.MF" z = true ->
      zopen z "META-INF/MANIFEST.MF" = Raise e ->
      resolve_jar_version z placeholder = Raise e)
  /\ (forall manifest, in_namelist "META-INF/MANIFEST.MF" z = true ->
      zopen z "META-INF/MANIFEST.MF" = Ok manifest ->
      Forall (fun l => tagged l = false) (fst (iter_lines manifest)) ->
      resolve_jar_version z placeholder
      = match snd (iter_lines manifest) with
        | Some e => Raise e
        | None => Ok placeholder
        end)
  /\ (forall manifest before line rest value,
      in_namelist "META-INF/MANIFEST.MF" z = true ->
      zopen z "META-INF/MANIFEST.MF" = Ok manifest ->
      fst (iter_lines manifest) = (before ++ line :: rest)%list ->
      Forall (fun l => tagged l = false) before ->
      Str.strip (decode_utf8_ignore line) = "Implementation-Version:" +:+ value ->
      resolve_jar_version z placeholder = Ok (PStr (Str.strip value)))
  /\ (forall d, iter_lines (Intact d) = (Str.lines d, None))
  /\ (forall d, iter_lines (Damaged d)
                = (Str.complete_lines (Str.take (delivered d) d), Some BadZipFile)).
Proof.
  cbv zeta. split; [apply resolve_other_version|].
  change (resolve_jar_version z (PStr "${file.jarVersion}"))
    with (if in_namelist "META-INF/MANIFEST.MF" z
          then let* manifest := zopen z "META-INF/MANIFEST.MF" in
               let '(lines, ending) := iter_lines manifest in
               manifest_version lines ending (PStr "${file.jarVersion}")
          else Ok (PStr "${file.jarVersion}")).
  split; [|split; [|split; [|split; [|split]]]]; try reflexivity.
  - intros ->. reflexivity.
  - intros e -> ->. reflexivity.
  - intros manifest -> -> Hnone. cbn [rbind].
    destruct (iter_lines manifest) as [lines ending]. simpl in Hnone |- *.
    now rewrite manifest_version_none.
  - intros manifest before line rest value -> -> Hlines Hbefore Hline. cbn [rbind].
    destruct (iter_lines manifest) as [lines ending]. simpl in Hlines. subst lines.
    now rewrite (manifest_version_first before line rest ending value).
Qed.

(** A damaged manifest that ends within its first block makes the resolution
    raise; when its version line is in a block before the failing one the
    version is resolved and nothing is raised. *)
Example damaged_manifest_versions :
  @resolve_jar_version Sample.lib forge_jar_damaged (PStr "${file.jarVersion}")
  = Raise BadZipFile
  /\ @resolve_jar_version Sample.lib forge_jar_damaged_late (PStr "${file.jarVersion}")
     = Ok (PStr "1.2.3").
Proof. split; vm_compute; reflexivity. Qed.

(** The white space that [strip] removes includes the no-break space U+00A0
    and the em space U+2003. *)
Example strip_removes_unicode_space :
  Str.strip (Str.bytes [194; 160; 32] +:+ "1.2.3" +:+ Str.bytes [226; 128; 131; 9])%nat
  = "1.2.3".
Proof. vm_compute. reflexivity. Qed.

End JarVersion.

Lemma jar_version_resolution_witness :
  @resolve_jar_version Sample.lib forge_jar (PStr "${file.jarVersion}")
  = Ok (PStr "1.2.3").
Proof.
  destruct (@jar_version_resolution Sample.lib forge_jar) as (_ & _ & _ & _ & Hfirst & _).
  apply (Hfirst (Intact manifest_text) ["Manifest-Version: 1.0" +:+ crlf]
           ("Implementation-Version: 1.2.3 " +:+ crlf) [] " 1.2.3").
  - reflexivity.
  - reflexivity.
  - reflexivity.
  - repeat constructor.
  - reflexivity.
Defined.

(** ** Keys that coincide *)

Lemma append_assoc (a b c : string) : (a +:+ b) +:+ c = a +:+ (b +:+ c).
Proof.
  induction a as [|x a IH]; [reflexivity|].
  change (String x ((a +:+ b) +:+ c) = String x (a +:+ (b +:+ c))).
  now rewrite IH.
Qed.

Section Collisions.
Context `{PyLib}.

(** X17.  The composite key does not separate its three parts: an id that
    ends in [_b] under a loader [c] has the key of the id without that end
    under the loader [b_c].  In particular a forge record whose version is
    [legacy_v] and a forge_legacy record of the same id whose version is [v]
    share one key, so that the one read second is dropped. *)
Theorem composite_keys_coincide (a b c : string) (version : pyval) :
  c <> "" ->
  _make_mod_key (PStr (a +:+ "_" +:+ b)) (PStr c) version
  = _make_mod_key (PStr a) (PStr (b +:+ "_" +:+ c)) version
  /\ (forall v, v <> "" ->
        _make_mod_key (PStr a) (PStr "forge") (PStr ("legacy_" +:+ v))
        = _make_mod_key (PStr a) (PStr "forge_legacy") (PStr v)).
Proof.
  intros Hc. split.
  - unfold _make_mod_key, Py.or.
    assert (Et : Py.truthy (PStr c) = true).
    { simpl. destruct c; [contradiction | reflexivity]. }
    assert (Et' : Py.truthy (PStr (b +:+ "_" +:+ c)) = true).
    { simpl. destruct b; reflexivity. }
    rewrite Et, Et'.
    change (py_str (PStr (a +:+ "_" +:+ b))) with (a +:+ "_" +:+ b).
    change (py_str (PStr (b +:+ "_" +:+ c))) with (b +:+ "_" +:+ c).
    change (py_str (PStr c)) with c. change (py_str (PStr a)) with a.
    generalize (py_str (Py.or version (PStr "unknown"))). intros t.
    rewrite !append_assoc. reflexivity.
  - intros v Hv. unfold _make_mod_key, Py.or.
    assert (Et : Py.truthy (PStr v) = true).
    { simpl. destruct v; [contradiction | reflexivity]. }
    rewrite Et. cbn [Py.truthy py_str]. simpl. reflexivity.
Qed.

End Collisions.

Lemma composite_keys_coincide_witness :
  @_make_mod_key Sample.lib (PStr ("jei" +:+ "_" +:+ "addon")) (PStr "fabric") (PStr "1")
  = @_make_mod_key Sample.lib (PStr "jei") (PStr ("addon" +:+ "_" +:+ "fabric")) (PStr "1").
Proof.
  apply (@composite_keys_coincide Sample.lib "jei" "addon" "fabric" (PStr "1")).
  discriminate.
Defined.

(** ** A guess that no scanner contradicts *)

(** X18.  When neither scanner hit, the verdict is the meta-side guess
    itself, for each of the four guesses, and the reasons are the tagged meta
    reasons alone, whatever reasons the scanners passed. *)
Theorem no_hit_keeps_guess (loader meta_side : string) (mr mrs crs : list string) :
  In meta_side ["client_only"; "server_only"; "both"; "unknown"] ->
  _decide_side loader meta_side mr false mrs false crs
  = (meta_side, map (meta_tag loader) mr).
Proof.
  intros [<-|[<-|[<-|[<-|[]]]]]; reflexivity.
Qed.

Lemma no_hit_keeps_guess_witness :
  _decide_side "quilt" "both" ["r"] false ["stale"] false []
  = ("both", map (meta_tag "quilt") ["r"]).
Proof.
  apply (no_hit_keeps_guess "quilt" "both" ["r"] ["stale"] []).
  simpl. tauto.
Defined.
